(** * Ray-Tracing-Engine: the geometry kernel of [include/geometry/geometry.hh]

    A shallow embedding of [class Geometry] and [class Vector] and the
    properties their specification states about them.

    Reading guide.
    - [Real]     the scalar type [real_t] and the [<cmath>] functions used.
    - [Abort]    [m_assert]: a failed assertion ends the computation.
    - [Geometry] the integer rectangle.
    - [Vector]   the three-component vector, up to [reflection] and
                 [transmission].
    - [Snell]    the names the specification gives to the quantities of
                 [transmission], and what it calls a unit vector.
    - [Vector2D] the two-component template, at [real_t] and at [int].
    - [Utils]    [TERM_COLOR] and [HWTimer] of [utils.cc].
    - [Double]   the members of [Vector] once more, with [real_t] the
                 machine type binary64, to run them where rounding decides.
    - the lemmas and theorems, grouped by component; the tolerance [EPS]
      is a parameter, and the last part instantiates it at 10^-6. *)

From Stdlib Require Import Reals ZArith Bool Lra Lia.
From Stdlib Require String Ascii DecimalString DecimalZ.
From Stdlib Require PrimFloat FloatClass.

Open Scope R_scope.

(* ===================================================================== *)
(** * The scalar type [real_t]                                            *)
(* ===================================================================== *)

Module Real.

(** Modelled from the spec: [real_t], the typedef of [common.hh] behind every
    component ("three real-valued components").  The header itself names
    the IEEE special values ([numeric_limits<real_t>::infinity()],
    [isfinite], [isnormal]), so the model is the real line extended with
    both infinities and NaN.  Arithmetic on finite values is exact: rounding,
    overflow of finite results, subnormal numbers and the sign of zero are
    not part of the model (a zero divisor behaves as [+0]).  The theorems
    about this model therefore say what a member computes from its
    operands and which exit it takes; where the answer of the machine type
    depends on rounding, the member is run in [Double]. *)
Inductive real_t : Type :=
  | Fin (r : R)
  | PInf
  | NInf
  | NaN.

Inductive sign : Type := Neg | Zero | Pos.

Definition sgn (r : R) : sign :=
  if Rlt_dec 0 r then Pos else if Rlt_dec r 0 then Neg else Zero.

Definition Rltb (a b : R) : bool := if Rlt_dec a b then true else false.
Definition Rleb (a b : R) : bool := if Rle_dec a b then true else false.
Definition Reqb (a b : R) : bool := if Req_dec_T a b then true else false.

Definition inf (positive : bool) : real_t := if positive then PInf else NInf.

(** An infinity of the given sign times (or over [+0] when the finite
    operand is the dividend) a finite value. *)
Definition scale_inf (positive : bool) (r : R) : real_t :=
  match sgn r with
  | Pos => inf positive
  | Neg => inf (negb positive)
  | Zero => NaN
  end.

Definition zero : real_t := Fin 0.
Definition one : real_t := Fin 1.
Definition two : real_t := Fin 2.

(** Conversion [int -> real_t], as in [(real_t) std::max(w, h)]. *)
Definition of_int (n : Z) : real_t := Fin (IZR n).

Definition neg (a : real_t) : real_t :=
  match a with
  | Fin r => Fin (- r)
  | PInf => NInf
  | NInf => PInf
  | NaN => NaN
  end.

Definition add (a b : real_t) : real_t :=
  match a, b with
  | Fin r, Fin s => Fin (r + s)
  | NaN, _ | _, NaN => NaN
  | PInf, NInf | NInf, PInf => NaN
  | PInf, _ | _, PInf => PInf
  | NInf, _ | _, NInf => NInf
  end.

Definition sub (a b : real_t) : real_t := add a (neg b).

Definition mul (a b : real_t) : real_t :=
  match a, b with
  | Fin r, Fin s => Fin (r * s)
  | NaN, _ | _, NaN => NaN
  | PInf, PInf | NInf, NInf => PInf
  | PInf, NInf | NInf, PInf => NInf
  | PInf, Fin r | Fin r, PInf => scale_inf true r
  | NInf, Fin r | Fin r, NInf => scale_inf false r
  end.

Definition div (a b : real_t) : real_t :=
  match a, b with
  | Fin r, Fin s => if Reqb s 0 then scale_inf true r else Fin (r / s)
  | NaN, _ | _, NaN => NaN
  | Fin _, PInf | Fin _, NInf => Fin 0
  | PInf, PInf | PInf, NInf | NInf, PInf | NInf, NInf => NaN
  | PInf, Fin s => if Rltb s 0 then NInf else PInf
  | NInf, Fin s => if Rltb s 0 then PInf else NInf
  end.

(** [fabs] and [sqrt] of [<cmath>]. *)
Definition fabs (a : real_t) : real_t :=
  match a with
  | Fin r => Fin (Rabs r)
  | PInf | NInf => PInf
  | NaN => NaN
  end.

Definition sqrt (a : real_t) : real_t :=
  match a with
  | Fin r => if Rltb r 0 then NaN else Fin (R_sqrt.sqrt r)
  | PInf => PInf
  | NInf | NaN => NaN
  end.

(** The comparisons; every comparison with NaN is false. *)
Definition lt (a b : real_t) : bool :=
  match a, b with
  | Fin r, Fin s => Rltb r s
  | NaN, _ | _, NaN => false
  | _, NInf => false
  | PInf, _ => false
  | NInf, _ => true
  | _, PInf => true
  end.

Definition le (a b : real_t) : bool :=
  match a, b with
  | Fin r, Fin s => Rleb r s
  | NaN, _ | _, NaN => false
  | NInf, _ => true
  | _, PInf => true
  | _, NInf => false
  | PInf, _ => false
  end.

Definition gt (a b : real_t) : bool := lt b a.
Definition ge (a b : real_t) : bool := le b a.

(** [std::max(a, b)] is [(a < b) ? b : a]. *)
Definition max (a b : real_t) : real_t := if lt a b then b else a.

(** [isfinite] and [std::isnormal] of [<cmath>]; without subnormal numbers
    a finite value is normal exactly when it is not zero. *)
Definition isfinite (a : real_t) : bool :=
  match a with
  | Fin _ => true
  | _ => false
  end.

Definition isnormal (a : real_t) : bool :=
  match a with
  | Fin r => negb (Reqb r 0)
  | _ => false
  end.

(** Modelled from the spec: [::sqr], the scalar square helper of [common.hh]
    ("square(x)") that [transmission] calls. *)
Definition sqr (a : real_t) : real_t := mul a a.

Declare Scope real_t_scope.
Delimit Scope real_t_scope with rt.
Bind Scope real_t_scope with real_t.

Module Notations.
Infix "+" := add : real_t_scope.
Infix "-" := sub : real_t_scope.
Infix "*" := mul : real_t_scope.
Infix "/" := div : real_t_scope.
Notation "- a" := (neg a) : real_t_scope.
Infix "<?" := lt (at level 70, no associativity) : real_t_scope.
Infix "<=?" := le (at level 70, no associativity) : real_t_scope.
Infix ">?" := gt (at level 70, no associativity) : real_t_scope.
Infix ">=?" := ge (at level 70, no associativity) : real_t_scope.
End Notations.

End Real.

(* ===================================================================== *)
(** * Fatal assertions                                                    *)
(* ===================================================================== *)

Module Abort.

(** Modelled from the spec: [m_assert], the assertion macro of the missing
    debug header ("asserted, fatal if violated").  A computation that may
    abort returns [option]; [None] is the aborted process. *)
Definition m_assert (cond : bool) : option unit :=
  if cond then Some tt else None.

Definition bind {A B : Type} (c : option A) (k : A -> option B) : option B :=
  match c with
  | Some a => k a
  | None => None
  end.

Module Notations.
Notation "c ;; k" := (bind c (fun _ => k))
  (at level 61, right associativity).
End Notations.

End Abort.

(* ===================================================================== *)
(** * [class Geometry]                                                    *)
(* ===================================================================== *)

Module Geometry.

Import Real.

(** [int w, h]; the constructor stores its two arguments unchanged. *)
Record t : Type := mk { w : Z; h : Z }.

(** The value of a 32-bit [int] expression whose mathematical result is [n].
    Signed overflow is undefined in C++; the model takes the two's
    complement result. *)
Definition wrap_int (n : Z) : Z :=
  ((n + 2147483648) mod 4294967296 - 2147483648)%Z.

(** [int area() const { return w * h; }] *)
Definition area (g : t) : Z := wrap_int (w g * h g).

(** [real_t ratio() const { return (real_t) std::max(w, h) / std::min(w, h); }]
    The cast binds to [std::max(w, h)]; the divisor is converted by the
    usual arithmetic conversions. *)
Definition ratio (g : t) : real_t :=
  div (of_int (Z.max (w g) (h g))) (of_int (Z.min (w g) (h g))).

(** [bool contain(int x, int y) { return (x >= 0 && x < w && y >= 0 && y < h); }] *)
Definition contain (g : t) (x y : Z) : bool :=
  (x >=? 0)%Z && (x <? w g)%Z && (y >=? 0)%Z && (y <? h g)%Z.

End Geometry.

(* ===================================================================== *)
(** * [class Vector]                                                      *)
(* ===================================================================== *)

Module Vector.

Import Real Real.Notations Abort Abort.Notations.
Local Open Scope real_t_scope.

(** [real_t x = 0, y = 0, z = 0;] *)
Record t : Type := mk { x : real_t; y : real_t; z : real_t }.

(** [explicit Vector(real_t m_x = 0, real_t m_y = 0, real_t m_z = 0)]:
    [mk] is the call with three arguments; the calls with fewer arguments
    take the defaults. *)
Definition Vector0 : t := mk zero zero zero.
Definition Vector1 (m_x : real_t) : t := mk m_x zero zero.
Definition Vector2 (m_x m_y : real_t) : t := mk m_x m_y zero.

(** [Vector(const Vector &p0, const Vector &p1):
      x(p1.x - p0.x), y(p1.y -p0.y), z(p1.z - p0.z) {}] *)
Definition from_points (p0 p1 : t) : t :=
  mk (x p1 - x p0) (y p1 - y p0) (z p1 - z p0).

(** [real_t index(int c) const { return c == 0 ? x : c == 1 ? y : z; }] *)
Definition index (v : t) (c : Z) : real_t :=
  if (c =? 0)%Z then x v else if (c =? 1)%Z then y v else z v.

(** [real_t& index(int c)] returns an lvalue: one of the three members of
    the object.  The member is a [member]; reading and assigning through
    the reference are [load] and [store]. *)
Inductive member : Type := member_x | member_y | member_z.

Definition index_ref (c : Z) : member :=
  if (c =? 0)%Z then member_x else if (c =? 1)%Z then member_y else member_z.

Definition load (v : t) (m : member) : real_t :=
  match m with
  | member_x => x v
  | member_y => y v
  | member_z => z v
  end.

Definition store (v : t) (m : member) (a : real_t) : t :=
  match m with
  | member_x => mk a (y v) (z v)
  | member_y => mk (x v) a (z v)
  | member_z => mk (x v) (y v) a
  end.

(** [real_t sqr() const { return x * x + y * y + z * z; }] *)
Definition sqr (v : t) : real_t := x v * x v + y v * y v + z v * z v.

(** [real_t mod() const { return sqrt(sqr()); }] *)
Definition mod_ (v : t) : real_t := sqrt (sqr v).

(** [real_t dot(const Vector &v) const { return x * v.x + y * v.y + z * v.z; }] *)
Definition dot (this v : t) : real_t :=
  x this * x v + y this * y v + z this * z v.

(** [Vector cross(const Vector &v) const] *)
Definition cross (this v : t) : t :=
  mk (y this * z v - z this * y v)
     (z this * x v - x this * z v)
     (x this * y v - y this * x v).

(** [operator +], [operator -] (binary and unary), [operator *],
    [operator *=] and [operator /]. *)
Definition op_add (this v : t) : t :=
  mk (x this + x v) (y this + y v) (z this + z v).

Definition op_sub (this v : t) : t :=
  mk (x this - x v) (y this - y v) (z this - z v).

Definition op_neg (this : t) : t :=
  mk (- x this) (- y this) (- z this).

Definition op_mul (this : t) (p : real_t) : t :=
  mk (x this * p) (y this * p) (z this * p).

Definition op_mul_assign (this : t) (p : real_t) : t :=
  mk (x this * p) (y this * p) (z this * p).

(** [{ return *this * (1.0 / p); }] *)
Definition op_div (this : t) (p : real_t) : t :=
  op_mul this (one / p).

(** [virtual void normalize()]: the object is scaled before the assertion
    is evaluated; the result is the object after the call.
    [[
      real_t m = 1 / mod();
      *this *= m;
      m_assert(std::isnormal(m));
    ]] *)
Definition normalize (this : t) : option t :=
  let m := one / mod_ this in
  let this' := op_mul_assign this m in
  m_assert (isnormal m) ;;
  Some this'.

(** [{ Vector ret( *this); ret.normalize(); return ret; }] *)
Definition get_normalized (this : t) : option t :=
  let ret := this in
  normalize ret.

(** [static Vector infinity()]: the constructor is called with two
    arguments.
    [[
      { return Vector(std::numeric_limits<real_t>::infinity(),
                      std::numeric_limits<real_t>::infinity()); }
    ]] *)
Definition infinity : t := Vector2 PInf PInf.

(** [static Vector get_zero() { return Vector(0, 0, 0); }] *)
Definition get_zero : t := mk zero zero zero.

(** [real_t get_max()] and [real_t get_abs_max()] *)
Definition get_max (this : t) : real_t :=
  max (x this) (max (y this) (z this)).

Definition get_abs_max (this : t) : real_t :=
  max (fabs (x this)) (max (fabs (y this)) (fabs (z this))).

(** [inline bool isnoraml() const
      { return isfinite(x) && isfinite(y) && isfinite(z); }] *)
Definition isnoraml (this : t) : bool :=
  isfinite (x this) && isfinite (y this) && isfinite (z this).

(** [bool is_positive(real_t threshold = EPS) const] and
    [bool is_zero(real_t threshold = EPS) const], with the threshold
    explicit. *)
Definition is_zero_at (this : t) (threshold : real_t) : bool :=
  (fabs (x this) <? threshold) && (fabs (y this) <? threshold)
  && (fabs (z this) <? threshold).

Definition is_positive_at (this : t) (threshold : real_t) : bool :=
  (x this >? threshold) && (y this >? threshold) && (z this >? threshold).

Section Tolerance.

(** Modelled from the spec: [EPS], the tolerance constant of [common.hh]
    ("a fixed small epsilon tolerance (a process-wide constant)"); its
    value is a parameter of everything below. *)
Variable EPS : R.

Definition eps : real_t := Fin EPS.

Definition is_zero (this : t) : bool := is_zero_at this eps.
Definition is_positive (this : t) : bool := is_positive_at this eps.

(** [bool operator == (const Vector &v) const] *)
Definition op_eq (this v : t) : bool :=
  (fabs (x this - x v) <? eps) && (fabs (y this - y v) <? eps)
  && (fabs (z this - z v) <? eps).

(** [bool operator != (const Vector &v) const] *)
Definition op_ne (this v : t) : bool :=
  (fabs (x this - x v) >=? eps) || (fabs (y this - y v) >=? eps)
  || (fabs (z this - z v) >=? eps).

(** [Vector reflection(const Vector& v) const]
    [[
      m_assert(fabs(v.sqr() - 1) < EPS && (sqr() - 1 < EPS));
      return *this * 2 * dot(v) - v;
    ]] *)
Definition reflection (this v : t) : option t :=
  m_assert ((fabs (sqr v - one) <? eps) && (sqr this - one <? eps)) ;;
  Some (op_sub (op_mul (op_mul this two) (dot this v)) v).

(** [Vector transmission(const Vector& v_in, real_t density) const]
    [[
      Vector ret = Vector::infinity();

      density = 1 / density;
      real_t cos1 = -dot(v_in);
      if (cos1 < EPS) return ret;
      m_assert(cos1 >= 0);
      real_t cos2 = 1 - ::sqr(density) * (1 - ::sqr(cos1));
      if (cos2 < 0) return ret;
      cos2 = sqrt(cos2);

      ret = v_in * density + ( *this) * (density * cos1 - cos2);
      return ret.get_normalized();
    ]] *)
Definition transmission (this v_in : t) (density : real_t) : option t :=
  let ret := infinity in
  let density := one / density in
  let cos1 := - dot this v_in in
  if cos1 <? eps then Some ret else
  m_assert (cos1 >=? zero) ;;
  let cos2 := one - Real.sqr density * (one - Real.sqr cos1) in
  if cos2 <? zero then Some ret else
  let cos2 := sqrt cos2 in
  let ret := op_add (op_mul v_in density)
                    (op_mul this (density * cos1 - cos2)) in
  get_normalized ret.

End Tolerance.

End Vector.

(* ===================================================================== *)
(** * The vocabulary of the specification                                 *)
(* ===================================================================== *)

Module Snell.

Import Real Real.Notations Vector.
Local Open Scope real_t_scope.

(** The names the specification gives to the quantities of [transmission]:
    the effective ratio [1 / density], [cos1 = -(normal . v_in)],
    [cos2_sq = 1 - ratio^2 * (1 - cos1^2)], and the direction
    [v_in * ratio + normal * (ratio * cos1 - cos2)] before normalization. *)
Definition ratio (density : real_t) : real_t := one / density.

Definition cos1 (normal v_in : Vector.t) : real_t := - dot normal v_in.

Definition cos2_sq (normal v_in : Vector.t) (density : real_t) : real_t :=
  one - (ratio density * ratio density)
        * (one - cos1 normal v_in * cos1 normal v_in).

Definition refracted (normal v_in : Vector.t) (density : real_t) : Vector.t :=
  op_add (op_mul v_in (ratio density))
         (op_mul normal (ratio density * cos1 normal v_in
                         - sqrt (cos2_sq normal v_in density))).

(** A unit vector as the assertion of [reflection] tests its argument:
    the squared length is within the tolerance of 1. *)
Definition near_unit (EPS : R) (v : Vector.t) : bool :=
  fabs (Vector.sqr v - one) <? eps EPS.

End Snell.

(* ===================================================================== *)
(** * [template<typename T> class Vector2D]                               *)
(* ===================================================================== *)

Module Vector2D.

Import Real Abort Abort.Notations.

(** What the members of the template ask of [T]: the arithmetic of [T]
    itself, and the conversion to [real_t] that takes place where a value
    of [T] meets [fabs], [hypot] or [EPS]. *)
Class Scalar (T : Type) : Type := {
  s_zero : T;
  s_add : T -> T -> T;
  s_sub : T -> T -> T;
  s_mul : T -> T -> T;
  s_neg : T -> T;
  to_real : T -> real_t
}.

(** [typedef Vector2D<real_t> Vec2D;] *)
#[global] Instance Scalar_real_t : Scalar real_t := {
  s_zero := Real.zero;
  s_add := Real.add;
  s_sub := Real.sub;
  s_mul := Real.mul;
  s_neg := Real.neg;
  to_real := fun a => a
}.

(** [typedef Vector2D<int> Coor;] with the arithmetic of a 32-bit [int]
    (two's complement on overflow, as in [Geometry.area]). *)
#[global] Instance Scalar_int : Scalar Z := {
  s_zero := 0%Z;
  s_add := fun a b => Geometry.wrap_int (a + b);
  s_sub := fun a b => Geometry.wrap_int (a - b);
  s_mul := fun a b => Geometry.wrap_int (a * b);
  s_neg := fun a => Geometry.wrap_int (- a);
  to_real := Real.of_int
}.

(** The values of an [int]. *)
Definition int_range (n : Z) : Prop :=
  (-2147483648 <= n < 2147483648)%Z.

(** [T x = 0, y = 0;] *)
Record t (T : Type) : Type := mk { x : T; y : T }.

Arguments mk {T} _ _.
Arguments x {T} _.
Arguments y {T} _.

(** [hypot] of [<cmath>]: an infinite argument gives [+inf] even beside a
    NaN. *)
Definition hypot (a b : real_t) : real_t :=
  match a, b with
  | PInf, _ | NInf, _ | _, PInf | _, NInf => PInf
  | NaN, _ | _, NaN => NaN
  | Fin r, Fin s => Fin (R_sqrt.sqrt (r * r + s * s))
  end.

Section Members.

Context {T : Type} `{Scalar T}.

(** [Vector2D<T>(){};] *)
Definition Vector2D0 : t T := mk s_zero s_zero.

(** [Vector2D<T> (const Vector2D<T> &p0, const Vector2D<T> &p1):
      x(p1.x - p0.x), y(p1.y -p0.y) {}] *)
Definition from_points (p0 p1 : t T) : t T :=
  mk (s_sub (x p1) (x p0)) (s_sub (y p1) (y p0)).

(** [T dot(const Vector2D<T> &v) const { return x * v.x + y * v.y; }] *)
Definition dot (this v : t T) : T :=
  s_add (s_mul (x this) (x v)) (s_mul (y this) (y v)).

(** [T cross(const Vector2D<T> &v) const { return x * v.y - y * v.x; }] *)
Definition cross (this v : t T) : T :=
  s_sub (s_mul (x this) (y v)) (s_mul (y this) (x v)).

(** [operator +] and [operator -] *)
Definition op_add (this v : t T) : t T :=
  mk (s_add (x this) (x v)) (s_add (y this) (y v)).

Definition op_sub (this v : t T) : t T :=
  mk (s_sub (x this) (x v)) (s_sub (y this) (y v)).

(** [operator !]: take negative of the second component. *)
Definition op_not (this : t T) : t T := mk (x this) (s_neg (y this)).

(** [operator ~]: swap the two component. *)
Definition op_compl (this : t T) : t T := mk (y this) (x this).

(** [T sqr() const { return x * x + y * y; }] *)
Definition sqr (this : t T) : T :=
  s_add (s_mul (x this) (x this)) (s_mul (y this) (y this)).

(** [real_t mod() const { return hypot(x, y); }] *)
Definition mod_ (this : t T) : real_t :=
  hypot (to_real (x this)) (to_real (y this)).

Section Tolerance.

Variable EPS : R.

(** [bool operator == (const Vector2D<T> &v) const
      { return fabs(x - v.x) < EPS && fabs(y - v.y) < EPS; }] *)
Definition op_eq (this v : t T) : bool :=
  lt (fabs (to_real (s_sub (x this) (x v)))) (Fin EPS)
  && lt (fabs (to_real (s_sub (y this) (y v)))) (Fin EPS).

(** [bool is_zero() const { return fabs(x) < EPS && fabs(y) < EPS; }] *)
Definition is_zero (this : t T) : bool :=
  lt (fabs (to_real (x this))) (Fin EPS)
  && lt (fabs (to_real (y this))) (Fin EPS).

End Tolerance.

End Members.

(** The members that multiply a component by a [real_t] build the result
    with [Vector2D<T>(x * f, y * f)]; at [T = real_t] no conversion takes
    place.  The instantiation at [int], which narrows the products, is not
    modelled. *)

(** [Vector2D<T> operator * (real_t f) const] *)
Definition op_mul (this : t real_t) (f : real_t) : t real_t :=
  mk (mul (x this) f) (mul (y this) f).

(** [{ return *this * (1.0 / f); }] *)
Definition op_div (this : t real_t) (f : real_t) : t real_t :=
  op_mul this (div one f).

(** [Vector2D<T> get_normalized() const
      { real_t m = mod(); m_assert(m > EPS); m = 1 / m;
        return Vector2D<T>(x * m, y * m); }] *)
Definition get_normalized (EPS : R) (this : t real_t) : option (t real_t) :=
  let m := mod_ this in
  m_assert (gt m (Fin EPS)) ;;
  let m := div one m in
  Some (mk (mul (x this) m) (mul (y this) m)).

End Vector2D.

(* ===================================================================== *)
(** * [utils.cc]                                                          *)
(* ===================================================================== *)

Module Utils.

Import String Ascii Real.
Local Open Scope string_scope.

(** [ostream << int]: the decimal digits, after a minus sign for a
    negative number. *)
Definition print_int (n : Z) : string :=
  DecimalString.NilZero.string_of_int (Z.to_int n).

(** [string TERM_COLOR(int k)]
    [[
      ostringstream ss;
      ss << "\x1b[3" << k + 2 << "m";
      return ss.str();
    ]] *)
Definition TERM_COLOR (k : Z) : string :=
  String "027" "[3" ++ print_int (Geometry.wrap_int (k + 2)) ++ "m".

(** [struct timeval] as [gettimeofday] fills it: seconds and microseconds.
    The two fields are signed integers wide enough for the differences
    taken below. *)
Record timeval : Type := mk_timeval { tv_sec : Z; tv_usec : Z }.

(** [class HWTimer]: the only member is [timeval m_start]. *)
Record HWTimer : Type := mk_HWTimer { m_start : timeval }.

(** [HWTimer::HWTimer() { gettimeofday(&m_start, nullptr); }], given the
    time of day the call reads. *)
Definition HWTimer_new (now : timeval) : HWTimer := mk_HWTimer now.

(** [double HWTimer::get_sec() const], given the time of day it reads.
    [[
      double ret = tv.tv_sec - m_start.tv_sec +
          1e-6*(tv.tv_usec - m_start.tv_usec);
      if (ret < 0)
          ret += 24 * 3600;
      return ret;
    ]] *)
Definition get_sec (this : HWTimer) (tv : timeval) : real_t :=
  let ret :=
    add (of_int (tv_sec tv - tv_sec (m_start this)))
        (mul (Fin (1 / 1000000))
             (of_int (tv_usec tv - tv_usec (m_start this)))) in
  if lt ret zero then add ret (of_int (24 * 3600)) else ret.

End Utils.

(* ===================================================================== *)
(** * [class Vector] on the machine type                                  *)
(* ===================================================================== *)

Module Double.

Import PrimFloat FloatClass Abort Abort.Notations.
Local Open Scope float_scope.

(** Modelled from the spec: [real_t] as the IEEE binary64 type, the usual
    [typedef double real_t], with the hardware operations of the kernel's
    primitive floats.  The members below are those of [Vector], written
    again over this scalar type; [EPS] is a parameter here as well. *)
Definition real_t : Type := float.

(** [isfinite] and [std::isnormal] of [<cmath>]. *)
Definition isfinite (a : real_t) : bool := is_finite a.

Definition isnormal (a : real_t) : bool :=
  match classify a with
  | PNormal | NNormal => true
  | _ => false
  end.

(** [real_t x = 0, y = 0, z = 0;] *)
Record t : Type := mk { x : real_t; y : real_t; z : real_t }.

(** [Vector(const Vector &p0, const Vector &p1)] *)
Definition from_points (p0 p1 : t) : t :=
  mk (x p1 - x p0) (y p1 - y p0) (z p1 - z p0).

(** [sqr()], [mod()] and [dot()] *)
Definition sqr (v : t) : real_t := x v * x v + y v * y v + z v * z v.

Definition mod_ (v : t) : real_t := sqrt (sqr v).

Definition dot (this v : t) : real_t :=
  x this * x v + y this * y v + z this * z v.

(** [operator +], [operator -], [operator *] and [operator *=] *)
Definition op_add (this v : t) : t :=
  mk (x this + x v) (y this + y v) (z this + z v).

Definition op_sub (this v : t) : t :=
  mk (x this - x v) (y this - y v) (z this - z v).

Definition op_mul (this : t) (p : real_t) : t :=
  mk (x this * p) (y this * p) (z this * p).

Definition op_mul_assign (this : t) (p : real_t) : t :=
  mk (x this * p) (y this * p) (z this * p).

(** [normalize()] and [get_normalized()] *)
Definition normalize (this : t) : option t :=
  let m := 1 / mod_ this in
  let this' := op_mul_assign this m in
  m_assert (isnormal m) ;;
  Some this'.

Definition get_normalized (this : t) : option t :=
  let ret := this in
  normalize ret.

(** [static Vector infinity()], called with two arguments. *)
Definition infinity : t := mk PrimFloat.infinity PrimFloat.infinity 0.

(** [isnoraml()] *)
Definition isnoraml (this : t) : bool :=
  isfinite (x this) && isfinite (y this) && isfinite (z this).

Section Tolerance.

Variable EPS : real_t.

(** [operator ==] *)
Definition op_eq (this v : t) : bool :=
  (abs (x this - x v) <? EPS) && (abs (y this - y v) <? EPS)
  && (abs (z this - z v) <? EPS).

(** [reflection(v)] *)
Definition reflection (this v : t) : option t :=
  m_assert ((abs (sqr v - 1) <? EPS) && (sqr this - 1 <? EPS)) ;;
  Some (op_sub (op_mul (op_mul this 2) (dot this v)) v).

(** [transmission(v_in, density)] *)
Definition transmission (this v_in : t) (density : real_t) : option t :=
  let ret := infinity in
  let density := 1 / density in
  let cos1 := - dot this v_in in
  if cos1 <? EPS then Some ret else
  m_assert (0 <=? cos1) ;;
  let cos2 := 1 - (density * density) * (1 - cos1 * cos1) in
  if cos2 <? 0 then Some ret else
  let cos2 := sqrt cos2 in
  let ret := op_add (op_mul v_in density)
                    (op_mul this (density * cos1 - cos2)) in
  get_normalized ret.

End Tolerance.

End Double.

(* ===================================================================== *)
(** * Facts about the scalar model                                        *)
(* ===================================================================== *)

Section RealFacts.

Import Real.

Lemma Rltb_true (a b : R) : Rltb a b = true <-> a < b.
Proof. unfold Rltb; destruct (Rlt_dec a b); split; intros; easy. Qed.

Lemma Rltb_false (a b : R) : Rltb a b = false <-> b <= a.
Proof.
  unfold Rltb; destruct (Rlt_dec a b); split; intros; try easy; lra.
Qed.

Lemma Rleb_true (a b : R) : Rleb a b = true <-> a <= b.
Proof. unfold Rleb; destruct (Rle_dec a b); split; intros; easy. Qed.

Lemma Rleb_false (a b : R) : Rleb a b = false <-> b < a.
Proof.
  unfold Rleb; destruct (Rle_dec a b); split; intros; try easy; lra.
Qed.

Lemma Reqb_true (a b : R) : Reqb a b = true <-> a = b.
Proof. unfold Reqb; destruct (Req_dec_T a b); split; intros; easy. Qed.

Lemma Reqb_false (a b : R) : Reqb a b = false <-> a <> b.
Proof. unfold Reqb; destruct (Req_dec_T a b); split; intros; easy. Qed.

Lemma div_Fin (r s : R) : s <> 0 -> div (Fin r) (Fin s) = Fin (r / s).
Proof.
  intros Hs; simpl. apply Reqb_false in Hs. now rewrite Hs.
Qed.

Lemma Rdiv_ge_1_pos (a b : R) : 0 < b -> (1 <= a / b <-> b <= a).
Proof.
  intros Hb; split; intros H.
  - apply Rmult_le_compat_r with (r := b) in H; [|lra].
    unfold Rdiv in H. rewrite Rmult_assoc, Rinv_l in H; lra.
  - apply Rmult_le_reg_r with (r := b); [lra|].
    unfold Rdiv. rewrite Rmult_assoc, Rinv_l; lra.
Qed.

Lemma Rdiv_ge_1_neg (a b : R) : b < 0 -> (1 <= a / b <-> a <= b).
Proof.
  intros Hb.
  replace (a / b) with ((- a) / (- b)) by (field; lra).
  rewrite Rdiv_ge_1_pos by lra. lra.
Qed.

End RealFacts.

(** Case analysis on every comparison of reals in sight. *)
Ltac real_cases :=
  repeat match goal with
  | |- context [Rlt_dec ?a ?b] => destruct (Rlt_dec a b)
  | |- context [Rle_dec ?a ?b] => destruct (Rle_dec a b)
  | |- context [Req_dec_T ?a ?b] => destruct (Req_dec_T a b)
  | H : context [Rlt_dec ?a ?b] |- _ => destruct (Rlt_dec a b)
  | H : context [Rle_dec ?a ?b] |- _ => destruct (Rle_dec a b)
  | H : context [Req_dec_T ?a ?b] |- _ => destruct (Req_dec_T a b)
  end.


(* ===================================================================== *)
(** * Geometry                                                            *)
(* ===================================================================== *)

Section GeometryFacts.

Import Real Geometry.

(** Evaluate [std::max] and [std::min] of literal extents. *)
Ltac eval_extents :=
  cbn [w h];
  cbv [Z.max Z.min Z.compare Pos.compare Pos.compare_cont CompOpp].

(** The quotient computed by [ratio], whenever the divisor is not zero. *)
Lemma ratio_quotient (g : Geometry.t) :
  Z.min (w g) (h g) <> 0%Z ->
  ratio g = Fin (IZR (Z.max (w g) (h g)) / IZR (Z.min (w g) (h g))).
Proof.
  intros Hmin. unfold ratio, of_int. apply div_Fin.
  intros H0. apply eq_IZR in H0. contradiction.
Qed.

Lemma ratio_ge_1_iff (g : Geometry.t) :
  Z.min (w g) (h g) <> 0%Z ->
  (1 <= IZR (Z.max (w g) (h g)) / IZR (Z.min (w g) (h g))
   <-> (0 < Z.min (w g) (h g))%Z \/ w g = h g).
Proof.
  intros Hmin.
  assert (Hle : (Z.min (w g) (h g) <= Z.max (w g) (h g))%Z) by lia.
  destruct (Z_lt_dec 0 (Z.min (w g) (h g))) as [Hpos | Hneg].
  - rewrite Rdiv_ge_1_pos by (apply IZR_lt; exact Hpos).
    split; [now left | intros _; apply IZR_le; exact Hle].
  - assert (Hlt : (Z.min (w g) (h g) < 0)%Z) by lia.
    rewrite Rdiv_ge_1_neg by (apply IZR_lt; exact Hlt).
    split.
    + intros H. apply le_IZR in H. right. lia.
    + intros [H | H]; [lia | apply IZR_le; lia].
Qed.

(** C6, as stated, fails: both extents negative give a ratio below 1
    although the smaller one is not zero. *)
Lemma ratio_negative_extents_below_1 :
  Z.min (w (Geometry.mk (-4) (-2))) (h (Geometry.mk (-4) (-2))) <> 0%Z
  /\ ratio (Geometry.mk (-4) (-2)) = Fin (1 / 2)
  /\ Real.ge (ratio (Geometry.mk (-4) (-2))) one = false.
Proof.
  assert (Hr : ratio (Geometry.mk (-4) (-2)) = Fin (1 / 2)).
  { rewrite ratio_quotient by (simpl; lia). eval_extents. f_equal. lra. }
  split; [simpl; lia|]. split; [exact Hr|].
  rewrite Hr. unfold Real.ge, one; simpl. apply Rleb_false. lra.
Qed.

(** C6 (amended): whenever min(w, h) is not zero, [ratio] is the real
    quotient max(w, h) / min(w, h); that quotient is at least 1 exactly
    when min(w, h) is positive or w = h, so for every Geometry with
    positive extents.  [Geometry(4,2)] has ratio 2 and area 8. *)
Theorem ratio_spec :
  (forall g : Geometry.t,
      Z.min (w g) (h g) <> 0%Z ->
      ratio g = Fin (IZR (Z.max (w g) (h g)) / IZR (Z.min (w g) (h g)))
      /\ (Real.ge (ratio g) one = true
          <-> (0 < Z.min (w g) (h g))%Z \/ w g = h g))
  /\ ratio (Geometry.mk 4 2) = Fin 2
  /\ area (Geometry.mk 4 2) = 8%Z.
Proof.
  split; [|split].
  - intros g Hmin. split; [now apply ratio_quotient|].
    rewrite ratio_quotient by exact Hmin.
    unfold Real.ge, one; simpl. rewrite Rleb_true.
    now apply ratio_ge_1_iff.
  - rewrite ratio_quotient by (simpl; lia). eval_extents. f_equal. lra.
  - reflexivity.
Qed.

(** C7: [contain] is the half-open test 0 <= x < w and 0 <= y < h. *)
Theorem contain_spec :
  (forall (g : Geometry.t) (x y : Z),
      contain g x y = true <-> (0 <= x < w g)%Z /\ (0 <= y < h g)%Z)
  /\ contain (Geometry.mk 4 2) 3 1 = true
  /\ contain (Geometry.mk 4 2) 4 1 = false.
Proof.
  split; [|split; reflexivity].
  intros g x y. unfold contain.
  rewrite !andb_true_iff, !Z.geb_le, !Z.ltb_lt. lia.
Qed.

End GeometryFacts.

Lemma ratio_spec_witness :
  Z.min (Geometry.w (Geometry.mk 3 7)) (Geometry.h (Geometry.mk 3 7)) <> 0%Z
  /\ Geometry.ratio (Geometry.mk 3 7) = Real.Fin (7 / 3)
  /\ Real.ge (Geometry.ratio (Geometry.mk 3 7)) Real.one = true.
Proof.
  assert (H : Z.min (Geometry.w (Geometry.mk 3 7))
                    (Geometry.h (Geometry.mk 3 7)) <> 0%Z) by (simpl; lia).
  destruct (proj1 ratio_spec (Geometry.mk 3 7) H) as [Hq Hge].
  split; [exact H|]. split; [exact Hq|].
  apply Hge. left. simpl. lia.
Defined.

(* ===================================================================== *)
(** * Vector: components, constructors and the sentinel                   *)
(* ===================================================================== *)

Section VectorBasics.

Import Real Vector.

Lemma isnoraml_inv (v : Vector.t) :
  isnoraml v = true ->
  exists a b c : R, v = Vector.mk (Fin a) (Fin b) (Fin c).
Proof.
  destruct v as [[a| | |] [b| | |] [c| | |]]; simpl; try discriminate.
  intros _. now exists a, b, c.
Qed.

(** A finite squared length leaves no room for a special value in any
    component. *)
Lemma sqr_Fin_inv (v : Vector.t) (s : R) :
  Vector.sqr v = Fin s ->
  exists a b c : R,
    v = Vector.mk (Fin a) (Fin b) (Fin c) /\ s = a * a + b * b + c * c.
Proof.
  destruct v as [[a| | |] [b| | |] [c| | |]]; unfold Vector.sqr; simpl;
    try discriminate.
  intros H. injection H as <-. now exists a, b, c.
Qed.

(** C8: [index(c)] is x for c = 0, y for c = 1 and z for every other c; the
    reference overload designates the same member, for reading and for
    assignment through it. *)
Theorem index_spec (v : Vector.t) (c : Z) :
  (c = 0%Z -> index v c = x v
              /\ load v (index_ref c) = x v
              /\ forall a, store v (index_ref c) a = Vector.mk a (y v) (z v))
  /\ (c = 1%Z -> index v c = y v
                 /\ load v (index_ref c) = y v
                 /\ forall a, store v (index_ref c) a = Vector.mk (x v) a (z v))
  /\ (c <> 0%Z -> c <> 1%Z ->
      index v c = z v
      /\ load v (index_ref c) = z v
      /\ forall a, store v (index_ref c) a = Vector.mk (x v) (y v) a).
Proof.
  unfold index, index_ref.
  split; [|split].
  - intros ->. simpl. auto.
  - intros ->. simpl. auto.
  - intros H0 H1.
    apply Z.eqb_neq in H0, H1. rewrite H0, H1. simpl. auto.
Qed.

(** The sentinel as the code builds it. *)
Lemma infinity_components :
  x infinity = PInf /\ y infinity = PInf /\ z infinity = Fin 0.
Proof. repeat split. Qed.

End VectorBasics.

Lemma index_spec_witness :
  (7 <> 0)%Z /\ (7 <> 1)%Z
  /\ Vector.index (Vector.mk (Real.Fin 1) (Real.Fin 2) (Real.Fin 3)) 7
     = Real.Fin 3
  /\ Vector.index (Vector.mk (Real.Fin 1) (Real.Fin 2) (Real.Fin 3)) 0
     = Real.Fin 1
  /\ Vector.index (Vector.mk (Real.Fin 1) (Real.Fin 2) (Real.Fin 3)) 1
     = Real.Fin 2.
Proof.
  pose proof (index_spec (Vector.mk (Real.Fin 1) (Real.Fin 2) (Real.Fin 3)))
    as H.
  assert (H70 : (7 <> 0)%Z) by lia.
  assert (H71 : (7 <> 1)%Z) by lia.
  split; [exact H70|]. split; [exact H71|].
  split; [exact (proj1 (proj2 (proj2 (H 7%Z)) H70 H71))|].
  split.
  - exact (proj1 (proj1 (H 0%Z) eq_refl)).
  - exact (proj1 (proj1 (proj2 (H 1%Z)) eq_refl)).
Defined.

(* ===================================================================== *)
(** * Vector: special values through the arithmetic                       *)
(* ===================================================================== *)

Section SpecialValues.

Import Real Vector.

Lemma mul_NaN_r (a : real_t) : mul a NaN = NaN.
Proof. now destruct a. Qed.

Lemma add_NaN_r (a : real_t) : add a NaN = NaN.
Proof. now destruct a. Qed.

Lemma sub_NaN_l (a : real_t) : sub NaN a = NaN.
Proof. reflexivity. Qed.

Lemma lt_NaN_l (a : real_t) : lt NaN a = false.
Proof. reflexivity. Qed.

(** A vector of NaNs cannot be normalized: the assertion of [normalize]
    fails. *)
Lemma get_normalized_NaN : get_normalized (Vector.mk NaN NaN NaN) = None.
Proof. reflexivity. Qed.

Lemma op_mul_NaN (v : Vector.t) : op_mul v NaN = Vector.mk NaN NaN NaN.
Proof. unfold op_mul. now rewrite !mul_NaN_r. Qed.

Lemma op_add_NaN (v : Vector.t) :
  op_add v (Vector.mk NaN NaN NaN) = Vector.mk NaN NaN NaN.
Proof. unfold op_add; simpl. now rewrite !add_NaN_r. Qed.

(** With an undefined [cos1] the direction computed by [transmission] is
    undefined in every component. *)
Lemma refracted_NaN (normal v_in : Vector.t) (density : real_t) :
  Snell.cos1 normal v_in = NaN ->
  Snell.refracted normal v_in density = Vector.mk NaN NaN NaN.
Proof.
  intros Hc. unfold Snell.refracted. rewrite Hc.
  rewrite mul_NaN_r, sub_NaN_l, op_mul_NaN. apply op_add_NaN.
Qed.

Lemma cos2_sq_NaN (normal v_in : Vector.t) (density : real_t) :
  Snell.cos1 normal v_in = NaN ->
  Snell.cos2_sq normal v_in density = NaN.
Proof.
  intros Hc. unfold Snell.cos2_sq. rewrite Hc. simpl.
  now rewrite mul_NaN_r.
Qed.

End SpecialValues.

(* ===================================================================== *)
(** * Vector: the operations that depend on the tolerance                 *)
(* ===================================================================== *)

Section ToleranceFacts.

Import Real Vector Abort.

Variable EPS : R.
Hypothesis EPS_pos : 0 < EPS.
Hypothesis EPS_le_1 : EPS <= 1.

Local Abbreviation eps := (Vector.eps EPS).
Local Abbreviation transmission := (Vector.transmission EPS).
Local Abbreviation reflection := (Vector.reflection EPS).
Local Abbreviation op_eq := (Vector.op_eq EPS).

(** [transmission] in the vocabulary of the specification. *)
Lemma transmission_eq (normal v_in : Vector.t) (density : real_t) :
  transmission normal v_in density =
  if lt (Snell.cos1 normal v_in) eps then Some infinity
  else bind (m_assert (ge (Snell.cos1 normal v_in) zero))
         (fun _ =>
            if lt (Snell.cos2_sq normal v_in density) zero then Some infinity
            else get_normalized (Snell.refracted normal v_in density)).
Proof. reflexivity. Qed.

(** The defensive assertion [cos1 >= 0] can only fail on NaN. *)
Lemma cos1_assertion (c : real_t) :
  lt c eps = false -> c <> NaN -> ge c zero = true.
Proof.
  destruct c as [r | | |]; simpl; intros H Hn; try easy.
  apply Rltb_false in H. unfold ge, zero; simpl. apply Rleb_true. lra.
Qed.

Lemma transmission_grazing (normal v_in : Vector.t) (density : real_t) :
  lt (Snell.cos1 normal v_in) eps = true ->
  transmission normal v_in density = Some infinity.
Proof. intros H. rewrite transmission_eq, H. reflexivity. Qed.

Lemma transmission_total_internal_reflection
      (normal v_in : Vector.t) (density : real_t) :
  lt (Snell.cos1 normal v_in) eps = false ->
  lt (Snell.cos2_sq normal v_in density) zero = true ->
  transmission normal v_in density = Some infinity.
Proof.
  intros H1 H2. rewrite transmission_eq, H1.
  rewrite cos1_assertion; [simpl; now rewrite H2 | exact H1 |].
  intros Hc. rewrite (cos2_sq_NaN _ _ _ Hc) in H2. discriminate.
Qed.

Lemma transmission_failure (normal v_in : Vector.t) (density : real_t) :
  lt (Snell.cos1 normal v_in) eps = true
  \/ lt (Snell.cos2_sq normal v_in density) zero = true ->
  transmission normal v_in density = Some infinity.
Proof.
  intros [H | H]; [now apply transmission_grazing|].
  destruct (lt (Snell.cos1 normal v_in) eps) eqn:H1.
  - now apply transmission_grazing.
  - now apply transmission_total_internal_reflection.
Qed.

Lemma transmission_refracts (normal v_in : Vector.t) (density : real_t) :
  lt (Snell.cos1 normal v_in) eps = false ->
  lt (Snell.cos2_sq normal v_in density) zero = false ->
  transmission normal v_in density
  = get_normalized (Snell.refracted normal v_in density).
Proof.
  intros H1 H2. rewrite transmission_eq, H1, H2.
  destruct (Snell.cos1 normal v_in) eqn:Hc;
    try (rewrite cos1_assertion; [reflexivity | exact H1 | discriminate]).
  rewrite (refracted_NaN _ _ _ Hc). reflexivity.
Qed.


(** The sentinel is told apart from every direction by [isnoraml]. *)
Lemma isnoraml_infinity : isnoraml infinity = false.
Proof. reflexivity. Qed.


(** Vectors with finite components are equal, in the sense of
    [operator ==], to themselves. *)
Lemma op_eq_refl (a b c : R) :
  op_eq (Vector.mk (Fin a) (Fin b) (Fin c))
        (Vector.mk (Fin a) (Fin b) (Fin c)) = true.
Proof.
  unfold Vector.op_eq, Vector.eps; simpl.
  assert (H : forall u : R, Rltb (Rabs (u + - u)) EPS = true).
  { intros u. apply Rltb_true.
    replace (u + - u) with 0 by lra. rewrite Rabs_R0. exact EPS_pos. }
  now rewrite !H.
Qed.

(** Total internal reflection on a concrete ray: normal (0,0,1), incident
    direction (4/5, 0, -3/5), density 1/2.  Here cos1 = 3/5 and
    cos2_sq = 1 - 4 * (1 - 9/25) < 0. *)
Lemma total_internal_reflection_example :
  transmission (Vector.mk zero zero one)
               (Vector.mk (Fin (4 / 5)) zero (Fin (- 3 / 5))) (Fin (1 / 2))
  = Some infinity
  /\ isnoraml infinity = false.
Proof.
  split; [|reflexivity].
  apply transmission_failure. right.
  unfold Snell.cos2_sq, Snell.cos1, Snell.ratio, dot, zero, one.
  rewrite !div_Fin by lra. simpl. apply Rltb_true. lra.
Qed.

(** C3: on every failing call the vector returned has x and y equal to
    positive infinity and z equal to 0: [Vector::infinity()] passes two
    arguments to the constructor and the third takes its default.  The
    exiting ray normal (0,0,1), v_in (0,0,1), density 1 is such a call. *)
Theorem transmission_failure_components :
  (forall (normal v_in : Vector.t) (density : real_t),
      lt (Snell.cos1 normal v_in) eps = true
      \/ lt (Snell.cos2_sq normal v_in density) zero = true ->
      exists r : Vector.t,
        transmission normal v_in density = Some r
        /\ x r = PInf /\ y r = PInf /\ z r = Fin 0 /\ z r <> PInf)
  /\ transmission (Vector.mk zero zero one) (Vector.mk zero zero one) one
     = Some (Vector.mk PInf PInf (Fin 0)).
Proof.
  split.
  - intros normal v_in density Hfail. exists infinity.
    split; [now apply transmission_failure|].
    repeat split. discriminate.
  - apply transmission_grazing.
    unfold Snell.cos1, dot, zero, one; simpl. apply Rltb_true. lra.
Qed.

(** C10: [isnoraml] is false on the sentinel, although the third component
    of the sentinel is finite, and so on the result of every failing call
    of [transmission]. *)
Theorem isnoraml_detects_failure :
  isnoraml infinity = false
  /\ isfinite (z infinity) = true
  /\ forall (normal v_in : Vector.t) (density : real_t),
      lt (Snell.cos1 normal v_in) eps = true
      \/ lt (Snell.cos2_sq normal v_in density) zero = true ->
      exists r : Vector.t,
        transmission normal v_in density = Some r /\ isnoraml r = false.
Proof.
  split; [reflexivity|]. split; [reflexivity|].
  intros normal v_in density Hfail. exists infinity.
  split; [now apply transmission_failure | reflexivity].
Qed.

(** ** [reflection] *)

(** The assertion of [reflection], as the code evaluates it: the argument
    is tested on both sides of 1, the object only from above. *)
Lemma reflection_aborts_iff (this v : Vector.t) :
  reflection this v = None
  <-> Snell.near_unit EPS v = false
      \/ lt (sub (sqr this) one) eps = false.
Proof.
  unfold Vector.reflection, Snell.near_unit, m_assert.
  destruct (lt (fabs (sub (sqr v) one)) eps);
    destruct (lt (sub (sqr this) one) eps); simpl;
    split; intros H; try discriminate; auto; destruct H; discriminate.
Qed.

Lemma lt_fabs (a : real_t) : lt (fabs a) eps = true -> lt a eps = true.
Proof.
  destruct a as [r | | |]; simpl; try discriminate.
  rewrite !Rltb_true. intros H.
  pose proof (Rle_abs r). lra.
Qed.

(** C4: the zero vector as the object passes the assertion of
    [reflection] with the unit argument (0,0,1), although its squared
    length differs from 1 by 1. *)
Theorem reflection_accepts_zero_object :
  Snell.near_unit EPS get_zero = false
  /\ Snell.near_unit EPS (Vector.mk zero zero one) = true
  /\ reflection get_zero (Vector.mk zero zero one)
     = Some (Vector.mk (Fin 0) (Fin 0) (Fin (-1))).
Proof.
  split; [|split].
  - unfold Snell.near_unit, get_zero, sqr, zero, one, Vector.eps; simpl.
    apply Rltb_false.
    replace (0 * 0 + 0 * 0 + 0 * 0 + - (1)) with (- (1)) by lra.
    rewrite Rabs_Ropp, Rabs_R1. exact EPS_le_1.
  - unfold Snell.near_unit, sqr, zero, one, Vector.eps; simpl.
    apply Rltb_true.
    replace (0 * 0 + 0 * 0 + 1 * 1 + - (1)) with 0 by lra.
    rewrite Rabs_R0. exact EPS_pos.
  - unfold Vector.reflection, get_zero, sqr, dot, zero, one, two,
      Vector.eps; simpl.
    replace (0 * 0 + 0 * 0 + 1 * 1 + - (1)) with 0 by lra.
    rewrite Rabs_R0.
    assert (H1 : Rltb 0 EPS = true) by (apply Rltb_true; lra).
    assert (H2 : Rltb (0 * 0 + 0 * 0 + 0 * 0 + - (1)) EPS = true)
      by (apply Rltb_true; lra).
    rewrite H1, H2. simpl. unfold op_sub, op_mul; simpl.
    repeat f_equal; lra.
Qed.

End ToleranceFacts.

(* ===================================================================== *)
(** * The theorems at a concrete tolerance                                *)
(* ===================================================================== *)

Lemma transmission_failure_components_witness :
  0 < 1 / 1000000
  /\ Real.lt (Snell.cos1 (Vector.mk Real.zero Real.zero Real.one)
                         (Vector.mk Real.zero Real.zero Real.one))
             (Vector.eps (1 / 1000000)) = true
  /\ exists r : Vector.t,
      Vector.transmission (1 / 1000000)
        (Vector.mk Real.zero Real.zero Real.one)
        (Vector.mk Real.zero Real.zero Real.one) Real.one = Some r
      /\ Vector.x r = Real.PInf /\ Vector.y r = Real.PInf
      /\ Vector.z r = Real.Fin 0 /\ Vector.z r <> Real.PInf.
Proof.
  assert (HE : 0 < 1 / 1000000) by lra.
  assert (Hc : Real.lt (Snell.cos1 (Vector.mk Real.zero Real.zero Real.one)
                          (Vector.mk Real.zero Real.zero Real.one))
                       (Vector.eps (1 / 1000000)) = true).
  { unfold Snell.cos1, Vector.dot, Real.zero, Real.one; simpl.
    apply Rltb_true. lra. }
  split; [exact HE|]. split; [exact Hc|].
  exact (proj1 (transmission_failure_components _ HE) _ _ Real.one
           (or_introl Hc)).
Defined.

Lemma isnoraml_detects_failure_witness :
  0 < 1 / 1000000
  /\ Real.lt (Snell.cos1 (Vector.mk Real.zero Real.zero Real.one)
                         (Vector.mk Real.zero Real.zero Real.one))
             (Vector.eps (1 / 1000000)) = true
  /\ exists r : Vector.t,
      Vector.transmission (1 / 1000000)
        (Vector.mk Real.zero Real.zero Real.one)
        (Vector.mk Real.zero Real.zero Real.one) Real.one = Some r
      /\ Vector.isnoraml r = false.
Proof.
  assert (HE : 0 < 1 / 1000000) by lra.
  assert (Hc : Real.lt (Snell.cos1 (Vector.mk Real.zero Real.zero Real.one)
                          (Vector.mk Real.zero Real.zero Real.one))
                       (Vector.eps (1 / 1000000)) = true).
  { unfold Snell.cos1, Vector.dot, Real.zero, Real.one; simpl.
    apply Rltb_true. lra. }
  split; [exact HE|]. split; [exact Hc|].
  exact (proj2 (proj2 (isnoraml_detects_failure _ HE)) _ _ Real.one
           (or_introl Hc)).
Defined.

Lemma reflection_accepts_zero_object_witness :
  0 < 1 / 1000000 /\ 1 / 1000000 <= 1
  /\ Snell.near_unit (1 / 1000000) Vector.get_zero = false
  /\ Vector.reflection (1 / 1000000) Vector.get_zero
       (Vector.mk Real.zero Real.zero Real.one)
     = Some (Vector.mk (Real.Fin 0) (Real.Fin 0) (Real.Fin (-1))).
Proof.
  assert (HE : 0 < 1 / 1000000) by lra.
  assert (H1 : 1 / 1000000 <= 1) by lra.
  split; [exact HE|]. split; [exact H1|].
  destruct (reflection_accepts_zero_object _ HE H1) as (Hz & _ & Hr).
  split; [exact Hz | exact Hr].
Defined.

(* ===================================================================== *)
(** * Algebra of the scalar model, special values included               *)
(* ===================================================================== *)

Section RealAlgebra.

Import Real.

Lemma add_comm (a b : real_t) : add a b = add b a.
Proof.
  destruct a as [r | | |], b as [s | | |]; simpl; try reflexivity.
  f_equal. lra.
Qed.

Lemma mul_comm (a b : real_t) : mul a b = mul b a.
Proof.
  destruct a as [r | | |], b as [s | | |]; simpl; try reflexivity.
  f_equal. lra.
Qed.

Lemma neg_involutive (a : real_t) : neg (neg a) = a.
Proof. destruct a as [r | | |]; simpl; try reflexivity. f_equal. lra. Qed.

Lemma neg_add (a b : real_t) : neg (add a b) = add (neg a) (neg b).
Proof.
  destruct a as [r | | |], b as [s | | |]; simpl; try reflexivity.
  f_equal. lra.
Qed.

Lemma neg_sub (a b : real_t) : neg (sub a b) = sub b a.
Proof.
  unfold sub. now rewrite neg_add, neg_involutive, add_comm.
Qed.

Lemma sgn_opp (r : R) :
  sgn (- r) = match sgn r with Pos => Neg | Neg => Pos | Zero => Zero end.
Proof. unfold sgn. real_cases; try reflexivity; lra. Qed.

Lemma scale_inf_opp (positive : bool) (r : R) :
  scale_inf positive (- r) = neg (scale_inf positive r).
Proof.
  unfold scale_inf. rewrite sgn_opp.
  destruct (sgn r), positive; reflexivity.
Qed.

Lemma mul_neg_r (a b : real_t) : mul a (neg b) = neg (mul a b).
Proof.
  destruct a as [r | | |], b as [s | | |]; simpl; try reflexivity;
    try apply scale_inf_opp.
  - f_equal. lra.
  - unfold scale_inf. destruct (sgn r); reflexivity.
  - unfold scale_inf. destruct (sgn r); reflexivity.
Qed.

Lemma fabs_sub_sym (a b : real_t) : fabs (sub a b) = fabs (sub b a).
Proof.
  destruct a as [r | | |], b as [s | | |]; simpl; try reflexivity.
  f_equal. replace (s + - r) with (- (r + - s)) by lra. now rewrite Rabs_Ropp.
Qed.

Lemma sub_self (a : real_t) :
  sub a a = if isfinite a then Fin 0 else NaN.
Proof. destruct a as [r | | |]; simpl; try reflexivity. f_equal. lra. Qed.

End RealAlgebra.

(* ===================================================================== *)
(** * Vector: products                                                    *)
(* ===================================================================== *)

Section VectorProducts.

Import Real Vector.

(** Whatever the components are, special values included, [dot] is
    commutative and [cross] is anti-commutative: [a.cross(b)] is
    [-(b.cross(a))]. *)
Theorem dot_cross_symmetry (a b : Vector.t) :
  dot a b = dot b a /\ cross a b = op_neg (cross b a).
Proof.
  split.
  - unfold dot.
    rewrite (mul_comm (x a)), (mul_comm (y a)), (mul_comm (z a)).
    reflexivity.
  - unfold cross, op_neg; simpl. rewrite !neg_sub.
    rewrite (mul_comm (y a) (z b)), (mul_comm (z a) (y b)),
      (mul_comm (z a) (x b)), (mul_comm (x a) (z b)),
      (mul_comm (x a) (y b)), (mul_comm (y a) (x b)).
    reflexivity.
Qed.

End VectorProducts.

(* ===================================================================== *)
(** * Vector: length and normalization                                    *)
(* ===================================================================== *)

Section VectorNormalization.

Import Real Vector Abort.

Lemma sqr_nonfinite (v : Vector.t) :
  isnoraml v = false -> sqr v = PInf \/ sqr v = NaN.
Proof.
  destruct v as [[a| | |] [b| | |] [c| | |]]; unfold sqr; simpl;
    intros H; try discriminate; auto.
Qed.

Lemma sqr_zero_iff (v : Vector.t) : sqr v = Fin 0 <-> v = get_zero.
Proof.
  split.
  - intros H. destruct (sqr_Fin_inv _ _ H) as (a & b & c & -> & Hs).
    assert (a = 0 /\ b = 0 /\ c = 0) as (-> & -> & ->) by (repeat split; nra).
    reflexivity.
  - intros ->. unfold sqr, get_zero, zero; simpl. f_equal. lra.
Qed.

Lemma normalize_eq (v : Vector.t) :
  normalize v
  = if isnormal (div one (mod_ v))
    then Some (op_mul v (div one (mod_ v))) else None.
Proof.
  unfold normalize, m_assert. now destruct (isnormal (div one (mod_ v))).
Qed.

(** The reciprocal length of a finite vector other than zero. *)
Lemma reciprocal_mod_finite (a b c : R) :
  a * a + b * b + c * c <> 0 ->
  div one (mod_ (Vector.mk (Fin a) (Fin b) (Fin c)))
  = Fin (1 / R_sqrt.sqrt (a * a + b * b + c * c))
  /\ 0 < R_sqrt.sqrt (a * a + b * b + c * c).
Proof.
  intros Hs.
  assert (Hpos : 0 < a * a + b * b + c * c) by nra.
  assert (Hq : 0 < R_sqrt.sqrt (a * a + b * b + c * c))
    by (apply sqrt_lt_R0; exact Hpos).
  split; [|exact Hq].
  unfold mod_, sqr, one; simpl.
  assert (H0 : Rltb (a * a + b * b + c * c) 0 = false)
    by (apply Rltb_false; lra).
  rewrite H0. apply div_Fin. lra.
Qed.

Lemma normalize_finite_nonzero (a b c : R) :
  a * a + b * b + c * c <> 0 ->
  normalize (Vector.mk (Fin a) (Fin b) (Fin c))
  = Some (op_mul (Vector.mk (Fin a) (Fin b) (Fin c))
                 (Fin (1 / R_sqrt.sqrt (a * a + b * b + c * c)))).
Proof.
  intros Hnz. rewrite normalize_eq.
  destruct (reciprocal_mod_finite a b c Hnz) as [-> Hq].
  assert (Hn : Reqb (1 / R_sqrt.sqrt (a * a + b * b + c * c)) 0 = false).
  { apply Reqb_false. apply Rgt_not_eq. apply Rdiv_lt_0_compat; lra. }
  simpl. now rewrite Hn.
Qed.

Lemma normalize_zero : normalize get_zero = None.
Proof.
  rewrite normalize_eq.
  unfold mod_, sqr, get_zero, zero, one; simpl.
  replace (0 * 0 + 0 * 0 + 0 * 0) with 0 by lra.
  assert (H0 : Rltb 0 0 = false) by (apply Rltb_false; lra).
  rewrite H0, sqrt_0. simpl.
  assert (H1 : Reqb 0 0 = true) by (now apply Reqb_true).
  rewrite H1. unfold scale_inf, sgn.
  destruct (Rlt_dec 0 1); [reflexivity | lra].
Qed.

Lemma normalize_nonfinite (v : Vector.t) :
  isnoraml v = false -> normalize v = None.
Proof.
  intros Hfin. rewrite normalize_eq. unfold mod_.
  destruct (sqr_nonfinite _ Hfin) as [-> | ->]; simpl.
  - assert (H1 : Reqb 0 0 = true) by (now apply Reqb_true).
    now rewrite H1.
  - reflexivity.
Qed.

(** The three cases of [get_normalized]. *)
Lemma get_normalized_cases (v : Vector.t) :
  (isnoraml v = false /\ get_normalized v = None)
  \/ (v = get_zero /\ get_normalized v = None)
  \/ (exists a b c : R,
         v = Vector.mk (Fin a) (Fin b) (Fin c)
         /\ a * a + b * b + c * c <> 0
         /\ get_normalized v
            = Some (op_mul v (Fin (1 / R_sqrt.sqrt (a * a + b * b + c * c))))).
Proof.
  unfold get_normalized.
  destruct (isnoraml v) eqn:Hfin.
  - destruct (isnoraml_inv _ Hfin) as (a & b & c & ->).
    destruct (Req_dec_T (a * a + b * b + c * c) 0) as [Hz | Hnz].
    + right; left.
      assert (Hv : Vector.mk (Fin a) (Fin b) (Fin c) = get_zero).
      { apply sqr_zero_iff. unfold sqr; simpl. now rewrite Hz. }
      rewrite Hv. split; [reflexivity | apply normalize_zero].
    + right; right. exists a, b, c.
      split; [reflexivity|]. split; [exact Hnz|].
      now apply normalize_finite_nonzero.
  - left. split; [reflexivity | now apply normalize_nonfinite].
Qed.

End VectorNormalization.

(* ===================================================================== *)
(** * Vector: arithmetic operators                                        *)
(* ===================================================================== *)

Section VectorArithmetic.

Import Real Vector.

Lemma add_neg_self (a : real_t) :
  add a (neg a) = if isfinite a then Fin 0 else NaN.
Proof. exact (sub_self a). Qed.

(** [v + (-v)] and [v - v] are the zero vector exactly when every
    component of [v] is finite; an infinite or NaN component gives NaN. *)
Theorem add_neg_zero_iff (v : Vector.t) :
  (op_add v (op_neg v) = get_zero <-> isnoraml v = true)
  /\ (op_sub v v = get_zero <-> isnoraml v = true).
Proof.
  assert (H : op_add v (op_neg v) = get_zero <-> isnoraml v = true).
  { unfold op_add, op_neg, get_zero, isnoraml, zero; simpl.
    rewrite !add_neg_self.
    destruct (isfinite (x v)), (isfinite (y v)), (isfinite (z v)); simpl;
      split; intros H; try reflexivity; discriminate. }
  split; [exact H | exact H].
Qed.

Lemma mul_PInf_not_finite (a : real_t) : isfinite (mul a PInf) = false.
Proof.
  destruct a as [r | | |]; simpl; try reflexivity.
  unfold scale_inf. now destruct (sgn r).
Qed.

(** [operator /] has no guard: dividing by zero never gives a vector with
    finite components. *)
Theorem op_div_zero (v : Vector.t) :
  isnoraml (op_div v (Fin 0)) = false
  /\ isfinite (x (op_div v (Fin 0))) = false
  /\ isfinite (y (op_div v (Fin 0))) = false
  /\ isfinite (z (op_div v (Fin 0))) = false.
Proof.
  assert (Hr : div one (Fin 0) = PInf).
  { unfold one; simpl.
    assert (H1 : Reqb 0 0 = true) by (now apply Reqb_true).
    rewrite H1. unfold scale_inf, sgn.
    destruct (Rlt_dec 0 1); [reflexivity | lra]. }
  unfold op_div, isnoraml. rewrite Hr. unfold op_mul; simpl.
  rewrite !mul_PInf_not_finite. repeat split.
Qed.

Lemma max_Fin (r s : R) : Real.max (Fin r) (Fin s) = Fin (Rmax r s).
Proof.
  unfold Real.max; simpl. unfold Rltb, Rmax.
  destruct (Rlt_dec r s), (Rle_dec r s); try reflexivity; try lra.
  f_equal. lra.
Qed.

(** On a finite vector [get_max] is one of the components and bounds all
    three from above. *)
Theorem get_max_bound (v : Vector.t) :
  isnoraml v = true ->
  (get_max v = x v \/ get_max v = y v \/ get_max v = z v)
  /\ le (x v) (get_max v) = true
  /\ le (y v) (get_max v) = true
  /\ le (z v) (get_max v) = true.
Proof.
  intros Hv. destruct (isnoraml_inv _ Hv) as (a & b & c & ->).
  unfold get_max; simpl. rewrite !max_Fin. simpl.
  rewrite !Rleb_true.
  pose proof (Rmax_l b c). pose proof (Rmax_r b c).
  pose proof (Rmax_l a (Rmax b c)). pose proof (Rmax_r a (Rmax b c)).
  split; [|repeat split; lra].
  destruct (Rmax_case a (Rmax b c) (fun m => m = a \/ m = Rmax b c))
    as [-> | ->]; auto.
  destruct (Rmax_case b c (fun m => m = b \/ m = c)) as [-> | ->]; auto.
Qed.

(** On a finite vector [is_zero(threshold)] says that the largest absolute
    component is below the threshold. *)
Theorem is_zero_get_abs_max (v : Vector.t) (threshold : real_t) :
  isnoraml v = true ->
  is_zero_at v threshold = lt (get_abs_max v) threshold.
Proof.
  intros Hv. destruct (isnoraml_inv _ Hv) as (a & b & c & ->).
  unfold is_zero_at, get_abs_max; simpl. rewrite !max_Fin.
  destruct threshold as [t | | |]; simpl; try reflexivity.
  pose proof (Rmax_l (Rabs b) (Rabs c)).
  pose proof (Rmax_r (Rabs b) (Rabs c)).
  pose proof (Rmax_l (Rabs a) (Rmax (Rabs b) (Rabs c))).
  pose proof (Rmax_r (Rabs a) (Rmax (Rabs b) (Rabs c))).
  destruct (Rltb (Rmax (Rabs a) (Rmax (Rabs b) (Rabs c))) t) eqn:Hm.
  - apply Rltb_true in Hm.
    rewrite !andb_true_iff, !Rltb_true. repeat split; lra.
  - apply Rltb_false in Hm.
    destruct (Rmax_case (Rabs a) (Rmax (Rabs b) (Rabs c))
                (fun m => m = Rabs a \/ m = Rmax (Rabs b) (Rabs c)))
      as [Ha | Hbc]; auto.
    + assert (Hf : Rltb (Rabs a) t = false) by (apply Rltb_false; lra).
      now rewrite Hf.
    + destruct (Rmax_case (Rabs b) (Rabs c)
                  (fun m => m = Rabs b \/ m = Rabs c)) as [Hb | Hc]; auto.
      * assert (Hf : Rltb (Rabs b) t = false) by (apply Rltb_false; lra).
        rewrite Hf. now rewrite andb_false_r.
      * assert (Hf : Rltb (Rabs c) t = false) by (apply Rltb_false; lra).
        rewrite Hf. now rewrite andb_false_r.
Qed.

Lemma gt_lt_fabs_exclusive (a threshold : real_t) :
  gt a threshold && lt (fabs a) threshold = false.
Proof.
  unfold gt.
  destruct a as [r | | |], threshold as [t | | |]; simpl; try reflexivity.
  unfold Rltb.
  destruct (Rlt_dec t r), (Rlt_dec (Rabs r) t); try reflexivity.
  pose proof (Rle_abs r). lra.
Qed.

(** [is_positive(threshold)] and [is_zero(threshold)] never hold together,
    whatever the components and the threshold are. *)
Theorem is_positive_is_zero_exclusive (v : Vector.t) (threshold : real_t) :
  is_positive_at v threshold && is_zero_at v threshold = false.
Proof.
  unfold is_positive_at, is_zero_at.
  pose proof (gt_lt_fabs_exclusive (x v) threshold) as Hx.
  destruct (gt (x v) threshold); simpl; [|reflexivity].
  simpl in Hx. rewrite Hx. simpl.
  now rewrite andb_false_r.
Qed.

End VectorArithmetic.

(* ===================================================================== *)
(** * Vector: comparison within the tolerance                             *)
(* ===================================================================== *)

Section VectorComparison.

Import Real Vector.

Variable EPS : R.
Hypothesis EPS_pos : 0 < EPS.

Local Abbreviation eps := (Vector.eps EPS).
Local Abbreviation op_eq := (Vector.op_eq EPS).
Local Abbreviation op_ne := (Vector.op_ne EPS).

Lemma near_self (a : real_t) : lt (fabs (sub a a)) eps = isfinite a.
Proof.
  rewrite sub_self. destruct a as [r | | |]; simpl; try reflexivity.
  apply Rltb_true. rewrite Rabs_R0. exact EPS_pos.
Qed.

Lemma far_self (a : real_t) : ge (fabs (sub a a)) eps = false.
Proof.
  rewrite sub_self. destruct a as [r | | |]; simpl; try reflexivity.
  unfold ge; simpl. apply Rleb_false. rewrite Rabs_R0. exact EPS_pos.
Qed.

(** A vector equals itself, in the sense of [operator ==], exactly when
    all its components are finite, and never differs from itself in the
    sense of [operator !=]: on the sentinel of [transmission] both
    operators answer false. *)
Theorem op_eq_self (v : Vector.t) :
  op_eq v v = isnoraml v /\ op_ne v v = false.
Proof.
  unfold Vector.op_eq, Vector.op_ne, isnoraml.
  rewrite !near_self, !far_self. split; reflexivity.
Qed.

Lemma ge_negb_lt (r : R) : ge (Fin r) eps = negb (lt (Fin r) eps).
Proof.
  unfold ge; simpl. unfold Rleb, Rltb.
  destruct (Rle_dec EPS r), (Rlt_dec r EPS); try reflexivity; lra.
Qed.

(** On finite vectors [operator !=] is the negation of [operator ==]. *)
Theorem op_ne_negb_op_eq (a b : Vector.t) :
  isnoraml a = true -> isnoraml b = true ->
  op_ne a b = negb (op_eq a b).
Proof.
  intros Ha Hb.
  destruct (isnoraml_inv _ Ha) as (a1 & a2 & a3 & ->).
  destruct (isnoraml_inv _ Hb) as (b1 & b2 & b3 & ->).
  unfold Vector.op_ne, Vector.op_eq; simpl fabs.
  rewrite !ge_negb_lt, !negb_andb. reflexivity.
Qed.

(** [operator ==] is symmetric, whatever the components are, but not
    transitive: two steps of two thirds of the tolerance each are both
    within it, their sum is not. *)
Theorem op_eq_symmetric_not_transitive :
  (forall a b : Vector.t, op_eq a b = op_eq b a)
  /\ exists a b c : Vector.t,
      op_eq a b = true /\ op_eq b c = true /\ op_eq a c = false.
Proof.
  split.
  - intros a b. unfold Vector.op_eq.
    rewrite (fabs_sub_sym (x a)), (fabs_sub_sym (y a)),
      (fabs_sub_sym (z a)).
    reflexivity.
  - exists (Vector.mk (Fin 0) (Fin 0) (Fin 0)),
           (Vector.mk (Fin (2 * EPS / 3)) (Fin 0) (Fin 0)),
           (Vector.mk (Fin (4 * EPS / 3)) (Fin 0) (Fin 0)).
    unfold Vector.op_eq, Vector.eps; simpl.
    assert (H0 : Rltb (Rabs (0 + - 0)) EPS = true).
    { apply Rltb_true. replace (0 + - 0) with 0 by lra.
      rewrite Rabs_R0. exact EPS_pos. }
    assert (H1 : Rltb (Rabs (0 + - (2 * EPS / 3))) EPS = true).
    { apply Rltb_true. rewrite Rabs_left by lra. lra. }
    assert (H2 : Rltb (Rabs (2 * EPS / 3 + - (4 * EPS / 3))) EPS = true).
    { apply Rltb_true. rewrite Rabs_left by lra. lra. }
    assert (H3 : Rltb (Rabs (0 + - (4 * EPS / 3))) EPS = false).
    { apply Rltb_false. rewrite Rabs_left by lra. lra. }
    rewrite H0, H1, H2, H3. repeat split.
Qed.

Lemma fabs_sub_zero (a : real_t) : fabs (sub a zero) = fabs a.
Proof.
  destruct a as [r | | |]; simpl; try reflexivity.
  f_equal. f_equal. lra.
Qed.

(** [is_zero()] is [operator ==] against the zero vector, whatever the
    components are. *)
Theorem is_zero_op_eq (v : Vector.t) :
  Vector.is_zero EPS v = op_eq v get_zero.
Proof.
  unfold Vector.is_zero, is_zero_at, Vector.op_eq, get_zero; simpl.
  now rewrite !fabs_sub_zero.
Qed.

End VectorComparison.

(* ===================================================================== *)
(** * Vector2D                                                            *)
(* ===================================================================== *)

Section IntArithmetic.

Import Geometry.

Lemma wrap_int_range (n : Z) : Vector2D.int_range (wrap_int n).
Proof. unfold Vector2D.int_range, wrap_int. Z.div_mod_to_equations. lia. Qed.

Lemma wrap_int_small (n : Z) : Vector2D.int_range n -> wrap_int n = n.
Proof. unfold Vector2D.int_range, wrap_int. Z.div_mod_to_equations. lia. Qed.

Lemma wrap_int_mod (n : Z) :
  exists k : Z, wrap_int n = (n + k * 4294967296)%Z.
Proof.
  exists (- ((n + 2147483648) / 4294967296))%Z.
  unfold wrap_int. Z.div_mod_to_equations. lia.
Qed.

Lemma wrap_int_congr (a b k : Z) :
  (a = b + k * 4294967296)%Z -> wrap_int a = wrap_int b.
Proof.
  intros ->. unfold wrap_int.
  replace (b + k * 4294967296 + 2147483648)%Z
    with (b + 2147483648 + k * 4294967296)%Z by ring.
  now rewrite Z.mod_add by lia.
Qed.

End IntArithmetic.

Section Vector2DFacts.

Import Real Vector2D.

(** The two symmetry operators are involutions: [~~v = v] for every
    scalar type, [!!v = v] for real components and for [int]
    components. *)
Theorem op_compl_op_not_involutive :
  (forall (T : Type) (S : Scalar T) (v : Vector2D.t T),
      op_compl (op_compl v) = v)
  /\ (forall v : Vector2D.t real_t, op_not (op_not v) = v)
  /\ (forall v : Vector2D.t Z,
         int_range (y v) -> op_not (op_not v) = v).
Proof.
  split; [|split].
  - intros T S [a b]. reflexivity.
  - intros [a b]. unfold op_not; simpl. now rewrite neg_involutive.
  - intros [a b]; simpl. intros Hb. unfold op_not; simpl. f_equal.
    unfold int_range, Geometry.wrap_int in *.
    Z.div_mod_to_equations. lia.
Qed.

(** The cross product is the dot product with the second operand swapped
    and mirrored: [a.cross(b) = a.dot(!~b)], for real components, special
    values included, and for [int] components, overflow included. *)
Theorem cross_dot_perp :
  (forall a b : Vector2D.t real_t, cross a b = dot a (op_not (op_compl b)))
  /\ (forall a b : Vector2D.t Z, cross a b = dot a (op_not (op_compl b))).
Proof.
  split.
  - intros [a1 a2] [b1 b2]. unfold cross, dot, op_not, op_compl; simpl.
    unfold Real.sub. now rewrite mul_neg_r.
  - intros [a1 a2] [b1 b2]. unfold cross, dot, op_not, op_compl; simpl.
    destruct (wrap_int_mod (a2 * b1)) as [k1 H1].
    destruct (wrap_int_mod (- b1)) as [k2 H2].
    destruct (wrap_int_mod (a2 * Geometry.wrap_int (- b1))) as [k3 H3].
    apply wrap_int_congr with (k := (- k1 - a2 * k2 - k3)%Z).
    rewrite H3, H1, H2. ring.
Qed.

(** On [Coor], with a tolerance of at most 1, [operator ==] is equality of
    the coordinates. *)
Theorem coor_op_eq_exact (EPS : R) (a b : Vector2D.t Z) :
  0 < EPS <= 1 ->
  int_range (x a) -> int_range (y a) -> int_range (x b) -> int_range (y b) ->
  (op_eq EPS a b = true <-> a = b).
Proof.
  intros HE Hxa Hya Hxb Hyb.
  assert (Hcomp : forall m n : Z,
             int_range m -> int_range n ->
             (lt (fabs (of_int (Geometry.wrap_int (m - n)))) (Fin EPS) = true
              <-> m = n)).
  { intros m n Hm Hn. unfold of_int; simpl. rewrite Rltb_true. split.
    - intros Habs.
      assert (Hw : Geometry.wrap_int (m - n) = 0%Z).
      { destruct (Z.eq_dec (Geometry.wrap_int (m - n)) 0) as [E | E];
          [exact E | exfalso].
        assert (H1 : 1 <= Rabs (IZR (Geometry.wrap_int (m - n)))).
        { rewrite <- abs_IZR. apply IZR_le. lia. }
        lra. }
      unfold int_range, Geometry.wrap_int in *.
      Z.div_mod_to_equations. lia.
    - intros ->. rewrite Z.sub_diag.
      change (Geometry.wrap_int 0) with 0%Z. rewrite Rabs_R0. lra. }
  destruct a as [a1 a2], b as [b1 b2]; simpl in *.
  unfold op_eq; simpl. rewrite andb_true_iff, !Hcomp by assumption.
  split; [intros [-> ->]; reflexivity | intros H; injection H; auto].
Qed.

End Vector2DFacts.

Section Vec2DNormalization.

Import Real Vector2D Abort.

Variable EPS : R.

Lemma vec2d_get_normalized_eq (v : Vector2D.t real_t) :
  get_normalized EPS v
  = if gt (mod_ v) (Fin EPS)
    then Some (Vector2D.mk (mul (x v) (div one (mod_ v)))
                           (mul (y v) (div one (mod_ v))))
    else None.
Proof.
  unfold get_normalized, m_assert. now destruct (gt (mod_ v) (Fin EPS)).
Qed.

Lemma mul_inf_zero (a : real_t) :
  a = PInf \/ a = NInf -> mul a (Fin 0) = NaN.
Proof.
  intros [-> | ->]; simpl; unfold scale_inf, sgn;
    destruct (Rlt_dec 0 0); try lra; reflexivity.
Qed.

Lemma hypot_inf (a b : real_t) :
  (a = PInf \/ a = NInf) \/ (b = PInf \/ b = NInf) -> hypot a b = PInf.
Proof.
  intros [[-> | ->] | [-> | ->]]; try reflexivity; now destruct a.
Qed.

(** [Vector2D::get_normalized] does not abort on an infinite component:
    its guard only looks for short vectors, and the component comes back
    as NaN. *)
Theorem vec2d_get_normalized_infinite (v : Vector2D.t real_t) :
  ((x v = PInf \/ x v = NInf) ->
   exists w, get_normalized EPS v = Some w /\ x w = NaN)
  /\ ((y v = PInf \/ y v = NInf) ->
      exists w, get_normalized EPS v = Some w /\ y w = NaN).
Proof.
  assert (Hgen : (x v = PInf \/ x v = NInf) \/ (y v = PInf \/ y v = NInf) ->
                 get_normalized EPS v
                 = Some (Vector2D.mk (mul (x v) (Fin 0))
                                     (mul (y v) (Fin 0)))).
  { intros Hinf. rewrite vec2d_get_normalized_eq.
    unfold mod_. simpl to_real. rewrite (hypot_inf _ _ Hinf). reflexivity. }
  split; intros Hinf.
  - eexists. split; [apply Hgen; now left|]. simpl.
    now apply mul_inf_zero.
  - eexists. split; [apply Hgen; now right|]. simpl.
    now apply mul_inf_zero.
Qed.

End Vec2DNormalization.

(* ===================================================================== *)
(** * utils.cc                                                            *)
(* ===================================================================== *)

Section TermColor.

Import String Ascii Utils.
Local Open Scope string_scope.

Lemma append_m_inj (s1 s2 : string) : s1 ++ "m" = s2 ++ "m" -> s1 = s2.
Proof.
  revert s2.
  induction s1 as [| c1 s1 IH]; intros [| c2 s2] H; simpl in H.
  - reflexivity.
  - injection H as _ H. destruct s2; discriminate.
  - injection H as _ H. destruct s1; discriminate.
  - injection H as -> H. f_equal. now apply IH.
Qed.

Lemma print_int_inj (a b : Z) : print_int a = print_int b -> a = b.
Proof.
  unfold print_int. intros H.
  assert (Hnn : forall n : Z,
             DecimalString.NilZero.int_of_string
               (DecimalString.NilZero.string_of_int (Z.to_int n))
             = Some (Z.to_int n)).
  { intros n. apply DecimalString.NilZero.isi;
      destruct n; simpl; try discriminate;
      intros E; injection E as E;
      now apply DecimalPos.Unsigned.to_uint_nonnil in E. }
  apply DecimalZ.to_int_inj.
  pose proof (Hnn a) as Ha. rewrite H, Hnn in Ha. now injection Ha.
Qed.

(** For [k] from 0 to 7 [TERM_COLOR(k)] is the five characters
    ESC [ 3 d m, where d is the digit k + 2: the documented range 0..4
    gives the colours 32 to 36. *)
Theorem TERM_COLOR_digit (k : Z) :
  (0 <= k <= 7)%Z ->
  TERM_COLOR k
  = String "027"
      (String "[" (String "3"
         (String (ascii_of_nat (50 + Z.to_nat k)) "m")))
  /\ String.length (TERM_COLOR k) = 5%nat.
Proof.
  intros Hk.
  assert (Hc : (k = 0 \/ k = 1 \/ k = 2 \/ k = 3 \/ k = 4 \/ k = 5
                \/ k = 6 \/ k = 7)%Z) by lia.
  destruct Hc as [-> | [-> | [-> | [-> | [-> | [-> | [-> | ->]]]]]]];
    split; reflexivity.
Qed.

(** Different [int] arguments give different escape sequences. *)
Theorem TERM_COLOR_inj (k1 k2 : Z) :
  Vector2D.int_range k1 -> Vector2D.int_range k2 ->
  TERM_COLOR k1 = TERM_COLOR k2 -> k1 = k2.
Proof.
  intros H1 H2 H. unfold TERM_COLOR in H. simpl in H.
  injection H as H. apply append_m_inj, print_int_inj in H.
  unfold Vector2D.int_range, Geometry.wrap_int in *.
  Z.div_mod_to_equations. lia.
Qed.

End TermColor.

Section Timer.

Import Real Utils.

Lemma get_sec_eq (start now : timeval) :
  get_sec (HWTimer_new start) now
  = if Rltb (IZR (tv_sec now - tv_sec start)
             + 1 / 1000000 * IZR (tv_usec now - tv_usec start)) 0
    then Fin (IZR (tv_sec now - tv_sec start)
              + 1 / 1000000 * IZR (tv_usec now - tv_usec start)
              + IZR (24 * 3600))
    else Fin (IZR (tv_sec now - tv_sec start)
              + 1 / 1000000 * IZR (tv_usec now - tv_usec start)).
Proof.
  unfold get_sec, HWTimer_new, of_int; simpl.
  now destruct (Rltb _ 0).
Qed.

End Timer.

(* ===================================================================== *)
(** * Instances at concrete inputs                                        *)
(* ===================================================================== *)

Lemma get_max_bound_witness :
  Vector.isnoraml (Vector.mk (Real.Fin 1) (Real.Fin 3) (Real.Fin 2)) = true
  /\ Real.le (Real.Fin 3)
       (Vector.get_max (Vector.mk (Real.Fin 1) (Real.Fin 3) (Real.Fin 2)))
     = true.
Proof.
  split; [reflexivity|].
  exact (proj1 (proj2 (proj2
    (get_max_bound (Vector.mk (Real.Fin 1) (Real.Fin 3) (Real.Fin 2))
                   eq_refl)))).
Defined.

Lemma is_zero_get_abs_max_witness :
  Vector.isnoraml (Vector.mk (Real.Fin 1) (Real.Fin 3) (Real.Fin 2)) = true
  /\ Vector.is_zero_at (Vector.mk (Real.Fin 1) (Real.Fin 3) (Real.Fin 2))
       (Real.Fin 5)
     = Real.lt
         (Vector.get_abs_max
            (Vector.mk (Real.Fin 1) (Real.Fin 3) (Real.Fin 2)))
         (Real.Fin 5).
Proof.
  split; [reflexivity|].
  exact (is_zero_get_abs_max
           (Vector.mk (Real.Fin 1) (Real.Fin 3) (Real.Fin 2))
           (Real.Fin 5) eq_refl).
Defined.

Lemma op_eq_self_witness :
  0 < 1 / 1000000
  /\ Vector.op_eq (1 / 1000000) Vector.infinity Vector.infinity = false
  /\ Vector.op_ne (1 / 1000000) Vector.infinity Vector.infinity = false.
Proof.
  assert (HE : 0 < 1 / 1000000) by lra.
  split; [exact HE|].
  exact (op_eq_self _ HE Vector.infinity).
Defined.

Lemma op_ne_negb_op_eq_witness :
  Vector.isnoraml (Vector.mk (Real.Fin 1) (Real.Fin 2) (Real.Fin 3)) = true
  /\ Vector.isnoraml (Vector.mk (Real.Fin 4) (Real.Fin 5) (Real.Fin 6)) = true
  /\ Vector.op_ne (1 / 1000000)
       (Vector.mk (Real.Fin 1) (Real.Fin 2) (Real.Fin 3))
       (Vector.mk (Real.Fin 4) (Real.Fin 5) (Real.Fin 6))
     = negb (Vector.op_eq (1 / 1000000)
               (Vector.mk (Real.Fin 1) (Real.Fin 2) (Real.Fin 3))
               (Vector.mk (Real.Fin 4) (Real.Fin 5) (Real.Fin 6))).
Proof.
  split; [reflexivity|]. split; [reflexivity|].
  exact (op_ne_negb_op_eq (1 / 1000000)
           (Vector.mk (Real.Fin 1) (Real.Fin 2) (Real.Fin 3))
           (Vector.mk (Real.Fin 4) (Real.Fin 5) (Real.Fin 6))
           eq_refl eq_refl).
Defined.

Lemma op_eq_symmetric_not_transitive_witness :
  0 < 1 / 1000000
  /\ exists a b c : Vector.t,
      Vector.op_eq (1 / 1000000) a b = true
      /\ Vector.op_eq (1 / 1000000) b c = true
      /\ Vector.op_eq (1 / 1000000) a c = false.
Proof.
  assert (HE : 0 < 1 / 1000000) by lra.
  split; [exact HE|].
  exact (proj2 (op_eq_symmetric_not_transitive _ HE)).
Defined.

Lemma op_compl_op_not_involutive_witness :
  Vector2D.int_range (Vector2D.y (Vector2D.mk 3%Z 4%Z))
  /\ Vector2D.op_not (Vector2D.op_not (Vector2D.mk 3%Z 4%Z))
     = Vector2D.mk 3%Z 4%Z.
Proof.
  assert (H : Vector2D.int_range (Vector2D.y (Vector2D.mk 3%Z 4%Z)))
    by (unfold Vector2D.int_range; simpl; lia).
  split; [exact H|].
  exact (proj2 (proj2 op_compl_op_not_involutive) _ H).
Defined.

Lemma coor_op_eq_exact_witness :
  0 < 1 / 1000000 <= 1
  /\ Vector2D.int_range 3 /\ Vector2D.int_range 4
  /\ Vector2D.op_eq (1 / 1000000) (Vector2D.mk 3%Z 4%Z)
       (Vector2D.mk 3%Z 4%Z) = true.
Proof.
  assert (HE : 0 < 1 / 1000000 <= 1) by lra.
  assert (H3 : Vector2D.int_range 3) by (unfold Vector2D.int_range; lia).
  assert (H4 : Vector2D.int_range 4) by (unfold Vector2D.int_range; lia).
  split; [exact HE|]. split; [exact H3|]. split; [exact H4|].
  exact (proj2 (coor_op_eq_exact _ (Vector2D.mk 3%Z 4%Z)
                  (Vector2D.mk 3%Z 4%Z) HE H3 H4 H3 H4) eq_refl).
Defined.

Lemma vec2d_get_normalized_infinite_witness :
  exists w : Vector2D.t Real.real_t,
    Vector2D.get_normalized (1 / 1000000)
      (Vector2D.mk Real.PInf (Real.Fin 0)) = Some w
    /\ Vector2D.x w = Real.NaN.
Proof.
  exact (proj1 (vec2d_get_normalized_infinite (1 / 1000000)
                  (Vector2D.mk Real.PInf (Real.Fin 0)))
           (or_introl eq_refl)).
Defined.

Lemma TERM_COLOR_digit_witness :
  (0 <= 4 <= 7)%Z /\ String.length (Utils.TERM_COLOR 4) = 5%nat.
Proof.
  assert (H : (0 <= 4 <= 7)%Z) by lia.
  split; [exact H|].
  exact (proj2 (TERM_COLOR_digit 4 H)).
Defined.

Lemma TERM_COLOR_inj_witness :
  Vector2D.int_range 3
  /\ Utils.TERM_COLOR 3 = Utils.TERM_COLOR (1 + 2)
  /\ 3%Z = (1 + 2)%Z.
Proof.
  assert (H3 : Vector2D.int_range 3) by (unfold Vector2D.int_range; lia).
  split; [exact H3|]. split; [reflexivity|].
  exact (TERM_COLOR_inj 3 (1 + 2) H3 H3 eq_refl).
Defined.

(* ===================================================================== *)
(** * Vector: what [normalize], [reflection] and [transmission] return    *)
(* ===================================================================== *)

Section Formulas.

Import Real Real.Notations Vector Abort.

Variable EPS : R.
Hypothesis EPS_pos : 0 < EPS.
Hypothesis EPS_le_1 : EPS <= 1.

Local Abbreviation eps := (Vector.eps EPS).
Local Abbreviation transmission := (Vector.transmission EPS).
Local Abbreviation reflection := (Vector.reflection EPS).
Local Abbreviation op_eq := (Vector.op_eq EPS).

(** What a returning [normalize] has checked and what it returns: the
    reciprocal length is normal, the vector is finite and not zero, and the
    result is the vector with every component multiplied by that
    reciprocal. *)
Lemma normalize_returns (v w : Vector.t) :
  normalize v = Some w ->
  isnormal (one / mod_ v)%rt = true
  /\ w = Vector.mk (x v * (one / mod_ v)) (y v * (one / mod_ v))
                   (z v * (one / mod_ v))
  /\ isnoraml v = true /\ v <> get_zero /\ isnoraml w = true.
Proof.
  intros Hw.
  destruct (get_normalized_cases v)
    as [[_ Hn] | [[_ Hn] | (a & b & c & -> & Hnz & Hs)]];
    unfold get_normalized in *; try (rewrite Hn in Hw; discriminate).
  rewrite Hs in Hw. injection Hw as <-.
  destruct (reciprocal_mod_finite a b c Hnz) as [Hm Hq].
  rewrite Hm.
  split; [|split; [reflexivity | split; [reflexivity | split]]].
  - simpl. apply negb_true_iff, Reqb_false, Rgt_not_eq.
    apply Rdiv_lt_0_compat; lra.
  - intros Hz. apply sqr_zero_iff in Hz. unfold sqr in Hz; simpl in Hz.
    injection Hz as Hz. contradiction.
  - reflexivity.
Qed.

(** The sentinel is never the result of a normalization, so a call of
    [transmission] that returns it has taken one of the two exits. *)
Lemma transmission_sentinel_cases
      (normal v_in : Vector.t) (density : real_t) :
  transmission normal v_in density = Some infinity ->
  lt (Snell.cos1 normal v_in) eps = true
  \/ lt (Snell.cos2_sq normal v_in density) zero = true.
Proof.
  intros Hs.
  destruct (lt (Snell.cos1 normal v_in) eps) eqn:H1; [now left|].
  destruct (lt (Snell.cos2_sq normal v_in density) zero) eqn:H2;
    [now right|].
  rewrite transmission_refracts in Hs by assumption.
  apply normalize_returns in Hs.
  destruct Hs as (_ & _ & _ & _ & Hfin). discriminate.
Qed.


(** [transmission] on concrete rays with density 1. *)
Lemma transmission_head_on (s : R) :
  EPS <= s ->
  transmission (Vector.mk zero zero one) (Vector.mk zero zero (Fin (- s))) one
  = Some (Vector.mk (Fin 0) (Fin 0) (Fin (-1))).
Proof.
  intros Hs.
  assert (Hpos : 0 < s) by lra.
  assert (H1 : lt (Snell.cos1 (Vector.mk zero zero one)
                              (Vector.mk zero zero (Fin (- s)))) eps = false).
  { unfold Snell.cos1, dot, zero, one; simpl. apply Rltb_false. lra. }
  assert (Hk : Snell.cos2_sq (Vector.mk zero zero one)
                 (Vector.mk zero zero (Fin (- s))) one = Fin (s * s)).
  { unfold Snell.cos2_sq, Snell.cos1, Snell.ratio, dot, zero, one.
    rewrite !div_Fin by lra. simpl. f_equal. field. }
  assert (H2 : lt (Snell.cos2_sq (Vector.mk zero zero one)
                     (Vector.mk zero zero (Fin (- s))) one) zero = false).
  { rewrite Hk. simpl. apply Rltb_false. nra. }
  assert (Hr : Snell.refracted (Vector.mk zero zero one)
                 (Vector.mk zero zero (Fin (- s))) one
               = Vector.mk (Fin 0) (Fin 0) (Fin (- s))).
  { unfold Snell.refracted. rewrite Hk.
    unfold Snell.cos1, Snell.ratio, dot, zero, one.
    rewrite !div_Fin by lra. simpl.
    assert (H0 : Rltb (s * s) 0 = false) by (apply Rltb_false; nra).
    rewrite H0, sqrt_square by lra.
    unfold op_add, op_mul; simpl. f_equal; f_equal; field. }
  rewrite transmission_refracts by assumption.
  rewrite Hr. unfold get_normalized.
  rewrite normalize_finite_nonzero by nra.
  replace (0 * 0 + 0 * 0 + - s * - s) with (s * s) by ring.
  rewrite sqrt_square by lra.
  unfold op_mul; simpl. f_equal. f_equal; f_equal; field; lra.
Qed.

(** C2: when neither sentinel exit is taken, [transmission] computes, with
    [r = 1 / density], [cos1 = -(normal . v_in)] and
    [cos2 = sqrt(1 - r^2 (1 - cos1^2))], the vector
    [v_in * r + normal * (r * cos1 - cos2)] and returns it normalized:
    every component multiplied by the reciprocal [m] of its length (the
    call aborts when [m] is not a normal number).  For normal (0,0,1),
    v_in (0,0,-1) and density 1 the result is (0,0,-1); for the longer
    v_in (0,0,-2) the normalization halves the vector to (0,0,-1). *)
Theorem transmission_formula :
  (forall (normal v_in : Vector.t) (density : real_t),
      let r := (one / density)%rt in
      let cos1 := (- (x normal * x v_in + y normal * y v_in
                      + z normal * z v_in))%rt in
      let cos2_sq := (one - r * r * (one - cos1 * cos1))%rt in
      let cos2 := sqrt cos2_sq in
      let X := (x v_in * r + x normal * (r * cos1 - cos2))%rt in
      let Y := (y v_in * r + y normal * (r * cos1 - cos2))%rt in
      let Z := (z v_in * r + z normal * (r * cos1 - cos2))%rt in
      let m := (one / sqrt (X * X + Y * Y + Z * Z))%rt in
      lt cos1 eps = false ->
      lt cos2_sq zero = false ->
      transmission normal v_in density
      = if isnormal m
        then Some (Vector.mk (X * m) (Y * m) (Z * m))
        else None)
  /\ (exists w : Vector.t,
         transmission (Vector.mk zero zero one)
                      (Vector.mk zero zero (Fin (-1))) one = Some w
         /\ w = Vector.mk (Fin 0) (Fin 0) (Fin (-1))
         /\ op_eq w (Vector.mk zero zero (Fin (-1))) = true)
  /\ transmission (Vector.mk zero zero one)
                  (Vector.mk zero zero (Fin (-2))) one
     = Some (Vector.mk (Fin 0) (Fin 0) (Fin (-1))).
Proof.
  split; [|split].
  - intros normal v_in density r cos1 cos2_sq cos2 X Y Z m H1 H2.
    rewrite transmission_refracts by assumption.
    unfold get_normalized. rewrite normalize_eq. reflexivity.
  - exists (Vector.mk (Fin 0) (Fin 0) (Fin (-1))).
    split; [|split; [reflexivity | apply op_eq_refl; exact EPS_pos]].
    exact (transmission_head_on 1 EPS_le_1).
  - assert (H2 : EPS <= 2) by lra.
    exact (transmission_head_on 2 H2).
Qed.

(** C5: for unit vectors d and n (squared length within the tolerance of
    1) [d.reflection(n)] returns [d * 2 * (d . n) - n], component by
    component.  For d = (0,0,-1) and n = (0,0,1) that is (0,0,1); for
    d = (0,0,1) and n = (3/5,0,4/5) it is (-3/5,0,4/5). *)
Theorem reflection_formula :
  (forall d n : Vector.t,
      Snell.near_unit EPS d = true -> Snell.near_unit EPS n = true ->
      let dn := (x d * x n + y d * y n + z d * z n)%rt in
      reflection d n
      = Some (Vector.mk (x d * two * dn - x n)
                        (y d * two * dn - y n)
                        (z d * two * dn - z n)))
  /\ (exists r : Vector.t,
         reflection (Vector.mk zero zero (Fin (-1)))
                    (Vector.mk zero zero one) = Some r
         /\ r = Vector.mk (Fin 0) (Fin 0) (Fin 1)
         /\ op_eq r (Vector.mk zero zero one) = true)
  /\ reflection (Vector.mk zero zero one)
                (Vector.mk (Fin (3 / 5)) zero (Fin (4 / 5)))
     = Some (Vector.mk (Fin (- 3 / 5)) (Fin 0) (Fin (4 / 5))).
Proof.
  assert (Hgen : forall d n : Vector.t,
             Snell.near_unit EPS d = true -> Snell.near_unit EPS n = true ->
             reflection d n
             = Some (Vector.mk
                       (x d * two * (x d * x n + y d * y n + z d * z n)
                        - x n)
                       (y d * two * (x d * x n + y d * y n + z d * z n)
                        - y n)
                       (z d * two * (x d * x n + y d * y n + z d * z n)
                        - z n))).
  { intros d n Hd Hn. unfold Vector.reflection.
    unfold Snell.near_unit in Hd, Hn.
    rewrite Hn, (lt_fabs EPS _ Hd). reflexivity. }
  assert (Hu : forall a b c : R,
             a * a + b * b + c * c = 1 ->
             Snell.near_unit EPS (Vector.mk (Fin a) (Fin b) (Fin c)) = true).
  { intros a b c Hs. unfold Snell.near_unit, sqr, one, Vector.eps; simpl.
    apply Rltb_true.
    replace (a * a + b * b + c * c + - (1)) with 0 by lra.
    rewrite Rabs_R0. exact EPS_pos. }
  split; [exact Hgen | split].
  - exists (Vector.mk (Fin 0) (Fin 0) (Fin 1)).
    split; [|split; [reflexivity | apply op_eq_refl; exact EPS_pos]].
    unfold zero, one. rewrite Hgen by (apply Hu; lra).
    unfold zero, one, two; simpl. f_equal. f_equal; f_equal; lra.
  - unfold zero, one. rewrite Hgen by (apply Hu; lra).
    unfold zero, one, two; simpl. f_equal. f_equal; f_equal; lra.
Qed.


End Formulas.

Section Guards.

Import Real Real.Notations Vector Abort.

(** [get_normalized] aborts on the zero vector and on every vector with a
    component that is not finite.  When it returns, the vector was finite
    and not zero, the reciprocal of its length is a normal number, every
    component of the result is the component multiplied by that
    reciprocal, and the result is finite. *)
Theorem get_normalized_guard (v : Vector.t) :
  (isnoraml v = false \/ v = get_zero -> get_normalized v = None)
  /\ (forall w : Vector.t,
         get_normalized v = Some w ->
         isnoraml v = true /\ v <> get_zero
         /\ isnormal (one / mod_ v)%rt = true
         /\ x w = (x v * (one / mod_ v))%rt
         /\ y w = (y v * (one / mod_ v))%rt
         /\ z w = (z v * (one / mod_ v))%rt
         /\ isnoraml w = true).
Proof.
  split.
  - intros [Hfin | ->]; unfold get_normalized.
    + now apply normalize_nonfinite.
    + apply normalize_zero.
  - intros w Hw. unfold get_normalized in Hw.
    destruct (normalize_returns _ _ Hw) as (Hm & Hv & Hfin & Hnz & Hw').
    split; [exact Hfin|]. split; [exact Hnz|]. split; [exact Hm|].
    rewrite Hv at 1 2 3. simpl. repeat split. exact Hw'.
Qed.

Variable EPS : R.
Hypothesis EPS_pos : 0 < EPS.

Local Abbreviation eps := (Vector.eps EPS).
Local Abbreviation transmission := (Vector.transmission EPS).

Lemma reciprocal_square_bound (d : R) :
  1 <= Rabs d -> d <> 0 /\ 0 < 1 / d * (1 / d) <= 1.
Proof.
  intros Hd.
  assert (Hdd : 1 <= d * d).
  { unfold Rabs in Hd. destruct (Rcase_abs d); nra. }
  assert (Hd0 : d <> 0) by nra.
  split; [exact Hd0|].
  replace (1 / d * (1 / d)) with (1 / (d * d)) by (field; exact Hd0).
  split.
  - apply Rdiv_lt_0_compat; lra.
  - apply Rmult_le_reg_r with (r := d * d); [lra|].
    unfold Rdiv. rewrite Rmult_assoc, Rinv_l; lra.
Qed.

(** Entering a medium at least as dense (a real density of absolute value
    1 or more) never takes the total-internal-reflection exit, whatever the
    two vectors are: [cos2_sq < 0] is false, and the sentinel is returned
    exactly by the test [cos1 < EPS]. *)
Theorem transmission_dense_medium (normal v_in : Vector.t) (d : R) :
  1 <= Rabs d ->
  lt (Snell.cos2_sq normal v_in (Fin d)) zero = false
  /\ (transmission normal v_in (Fin d) = Some infinity
      <-> lt (Snell.cos1 normal v_in) eps = true).
Proof.
  intros Hd.
  destruct (reciprocal_square_bound d Hd) as [Hd0 [Hr0 Hr1]].
  assert (H2 : lt (Snell.cos2_sq normal v_in (Fin d)) zero = false).
  { destruct (Snell.cos1 normal v_in) as [c | | |] eqn:Hc.
    - unfold Snell.cos2_sq, Snell.ratio, one, zero.
      rewrite Hc, !div_Fin by exact Hd0. simpl.
      apply Rltb_false. nra.
    - unfold Snell.cos2_sq, Snell.ratio, one, zero.
      rewrite Hc, !div_Fin by exact Hd0. simpl.
      unfold scale_inf, sgn. destruct (Rlt_dec 0 (1 / d * (1 / d))); [|lra].
      reflexivity.
    - unfold Snell.cos2_sq, Snell.ratio, one, zero.
      rewrite Hc, !div_Fin by exact Hd0. simpl.
      unfold scale_inf, sgn. destruct (Rlt_dec 0 (1 / d * (1 / d))); [|lra].
      reflexivity.
    - now rewrite (cos2_sq_NaN _ _ _ Hc). }
  split; [exact H2|]. split.
  - intros Hs.
    destruct (transmission_sentinel_cases EPS EPS_pos _ _ _ Hs) as [H | H];
      [exact H|].
    rewrite H2 in H. discriminate.
  - apply transmission_grazing.
Qed.

End Guards.

Section TimerForward.

Import Real Utils.

(** A timer read at or after its start, on a clock that did not go back,
    returns a finite value that is not negative. *)
Theorem get_sec_forward (start now : timeval) :
  (0 <= tv_usec start < 1000000)%Z -> (0 <= tv_usec now < 1000000)%Z ->
  (tv_sec start < tv_sec now
   \/ (tv_sec start = tv_sec now /\ tv_usec start <= tv_usec now))%Z ->
  exists r : R,
    get_sec (HWTimer_new start) now = Fin r /\ 0 <= r.
Proof.
  intros Hs Hn Hle.
  assert (Hu : -1000000 < IZR (tv_usec now - tv_usec start))
    by (apply IZR_lt; lia).
  assert (He : 0 <= IZR (tv_sec now - tv_sec start)
                    + 1 / 1000000 * IZR (tv_usec now - tv_usec start)).
  { destruct Hle as [Hlt | [Heq Hule]].
    - assert (1 <= IZR (tv_sec now - tv_sec start)) by (apply IZR_le; lia).
      lra.
    - rewrite Heq, Z.sub_diag.
      assert (0 <= IZR (tv_usec now - tv_usec start))
        by (apply IZR_le; lia).
      lra. }
  eexists. split; [|exact He].
  rewrite get_sec_eq.
  assert (Hf : Rltb (IZR (tv_sec now - tv_sec start)
                     + 1 / 1000000 * IZR (tv_usec now - tv_usec start)) 0
               = false) by (apply Rltb_false; exact He).
  now rewrite Hf.
Qed.

End TimerForward.

(* ===================================================================== *)
(** * The members on binary64                                             *)
(* ===================================================================== *)

Section DoubleReplay.

Import PrimFloat Double.
Local Open Scope float_scope.


(** With integer coordinates the round trip is exact on the machine type
    as well. *)
Lemma double_round_trip_integers :
  op_add (Double.mk 3 4 5) (from_points (Double.mk 3 4 5) (Double.mk 7 8 9))
  = Double.mk 7 8 9.
Proof. vm_compute. reflexivity. Qed.

(** [transmission] on the machine type, tolerance 10^-6: the abort at
    density 0 and at the density 0x1.87e92154ef7acp-665 (10^-200), whose
    reciprocal squares to infinity; the two head-on rays of C2; the exiting
    ray of C3. *)
Lemma double_transmission_replay :
  transmission 0x1.0c6f7a0b5ed8dp-20 (Double.mk 0 0 1) (Double.mk 0 0 (-1)) 0
  = None
  /\ transmission 0x1.0c6f7a0b5ed8dp-20 (Double.mk 0 0 1)
       (Double.mk 0 0 (-1)) 0x1.87e92154ef7acp-665 = None
  /\ transmission 0x1.0c6f7a0b5ed8dp-20 (Double.mk 0 0 1)
       (Double.mk 0 0 (-1)) 1 = Some (Double.mk 0 0 (-1))
  /\ transmission 0x1.0c6f7a0b5ed8dp-20 (Double.mk 0 0 1)
       (Double.mk 0 0 (-2)) 1 = Some (Double.mk 0 0 (-1))
  /\ transmission 0x1.0c6f7a0b5ed8dp-20 (Double.mk 0 0 1)
       (Double.mk 0 0 1) 1
     = Some (Double.mk PrimFloat.infinity PrimFloat.infinity 0).
Proof. repeat split; vm_compute; reflexivity. Qed.

(** [reflection] on the machine type, tolerance 10^-6: the two instances
    of C5 (0x1.3333333333333p-1 is 0.6, 0x1.999999999999ap-1 is 0.8) and
    the zero object of C4. *)
Lemma double_reflection_replay :
  reflection 0x1.0c6f7a0b5ed8dp-20 (Double.mk 0 0 (-1)) (Double.mk 0 0 1)
  = Some (Double.mk (-0) (-0) 1)
  /\ op_eq 0x1.0c6f7a0b5ed8dp-20 (Double.mk (-0) (-0) 1) (Double.mk 0 0 1)
     = true
  /\ reflection 0x1.0c6f7a0b5ed8dp-20 (Double.mk 0 0 1)
       (Double.mk 0x1.3333333333333p-1 0 0x1.999999999999ap-1)
     = Some (Double.mk (- 0x1.3333333333333p-1) 0 0x1.999999999999ap-1)
  /\ reflection 0x1.0c6f7a0b5ed8dp-20 (Double.mk 0 0 0) (Double.mk 0 0 1)
     = Some (Double.mk 0 0 (-1)).
Proof. repeat split; vm_compute; reflexivity. Qed.

End DoubleReplay.

(* ===================================================================== *)
(** * Instances of the formulas                                           *)
(* ===================================================================== *)



Lemma transmission_formula_witness :
  0 < 1 / 1000000 /\ 1 / 1000000 <= 1
  /\ Real.lt (Snell.cos1 (Vector.mk Real.zero Real.zero Real.one)
                         (Vector.mk Real.zero Real.zero (Real.Fin (- 2))))
             (Vector.eps (1 / 1000000)) = false
  /\ Real.lt (Snell.cos2_sq (Vector.mk Real.zero Real.zero Real.one)
                (Vector.mk Real.zero Real.zero (Real.Fin (- 2))) Real.one)
             Real.zero = false
  /\ Vector.transmission (1 / 1000000)
       (Vector.mk Real.zero Real.zero Real.one)
       (Vector.mk Real.zero Real.zero (Real.Fin (- 2))) Real.one
     = (if Real.isnormal
             (Real.div Real.one
                (Vector.mod_
                   (Snell.refracted (Vector.mk Real.zero Real.zero Real.one)
                      (Vector.mk Real.zero Real.zero (Real.Fin (- 2)))
                      Real.one)))
        then Some (Vector.op_mul
                     (Snell.refracted (Vector.mk Real.zero Real.zero Real.one)
                        (Vector.mk Real.zero Real.zero (Real.Fin (- 2)))
                        Real.one)
                     (Real.div Real.one
                        (Vector.mod_
                           (Snell.refracted
                              (Vector.mk Real.zero Real.zero Real.one)
                              (Vector.mk Real.zero Real.zero (Real.Fin (- 2)))
                              Real.one))))
        else None)
  /\ Vector.transmission (1 / 1000000)
       (Vector.mk Real.zero Real.zero Real.one)
       (Vector.mk Real.zero Real.zero (Real.Fin (-2))) Real.one
     = Some (Vector.mk (Real.Fin 0) (Real.Fin 0) (Real.Fin (-1))).
Proof.
  assert (HE : 0 < 1 / 1000000) by lra.
  assert (HE1 : 1 / 1000000 <= 1) by lra.
  assert (H1 : Real.lt (Snell.cos1 (Vector.mk Real.zero Real.zero Real.one)
                          (Vector.mk Real.zero Real.zero (Real.Fin (- 2))))
                       (Vector.eps (1 / 1000000)) = false).
  { unfold Snell.cos1, Vector.dot, Real.zero, Real.one; simpl.
    apply Rltb_false. lra. }
  assert (H2 : Real.lt (Snell.cos2_sq (Vector.mk Real.zero Real.zero Real.one)
                          (Vector.mk Real.zero Real.zero (Real.Fin (- 2)))
                          Real.one)
                       Real.zero = false).
  { unfold Snell.cos2_sq, Snell.cos1, Snell.ratio, Vector.dot.
    unfold Real.zero, Real.one. rewrite !div_Fin by lra. simpl.
    apply Rltb_false. lra. }
  split; [exact HE|]. split; [exact HE1|].
  split; [exact H1|]. split; [exact H2|].
  split.
  - exact (proj1 (transmission_formula _ HE HE1)
             (Vector.mk Real.zero Real.zero Real.one)
             (Vector.mk Real.zero Real.zero (Real.Fin (- 2)))
             Real.one H1 H2).
  - exact (proj2 (proj2 (transmission_formula _ HE HE1))).
Defined.

Lemma reflection_formula_witness :
  0 < 1 / 1000000
  /\ Snell.near_unit (1 / 1000000) (Vector.mk Real.zero Real.zero Real.one)
     = true
  /\ Snell.near_unit (1 / 1000000)
       (Vector.mk (Real.Fin (3 / 5)) Real.zero (Real.Fin (4 / 5))) = true
  /\ Vector.reflection (1 / 1000000)
       (Vector.mk Real.zero Real.zero Real.one)
       (Vector.mk (Real.Fin (3 / 5)) Real.zero (Real.Fin (4 / 5)))
     = Some (Vector.op_sub
               (Vector.op_mul
                  (Vector.op_mul (Vector.mk Real.zero Real.zero Real.one)
                                 Real.two)
                  (Vector.dot
                     (Vector.mk Real.zero Real.zero Real.one)
                     (Vector.mk (Real.Fin (3 / 5)) Real.zero
                                (Real.Fin (4 / 5)))))
               (Vector.mk (Real.Fin (3 / 5)) Real.zero (Real.Fin (4 / 5))))
  /\ Vector.reflection (1 / 1000000)
       (Vector.mk Real.zero Real.zero Real.one)
       (Vector.mk (Real.Fin (3 / 5)) Real.zero (Real.Fin (4 / 5)))
     = Some (Vector.mk (Real.Fin (- 3 / 5)) (Real.Fin 0) (Real.Fin (4 / 5))).
Proof.
  assert (HE : 0 < 1 / 1000000) by lra.
  assert (Hu : forall a c : R, a * a + c * c = 1 ->
             Snell.near_unit (1 / 1000000)
               (Vector.mk (Real.Fin a) Real.zero (Real.Fin c)) = true).
  { intros a c Hs.
    unfold Snell.near_unit, Vector.sqr, Real.zero, Real.one, Vector.eps.
    simpl. apply Rltb_true.
    replace (a * a + 0 * 0 + c * c + - (1)) with 0 by lra.
    rewrite Rabs_R0. lra. }
  assert (Hd : Snell.near_unit (1 / 1000000)
                 (Vector.mk Real.zero Real.zero Real.one) = true)
    by (apply (Hu 0 1); lra).
  assert (Hn : Snell.near_unit (1 / 1000000)
                 (Vector.mk (Real.Fin (3 / 5)) Real.zero (Real.Fin (4 / 5)))
               = true)
    by (apply (Hu (3 / 5) (4 / 5)); lra).
  split; [exact HE|]. split; [exact Hd|]. split; [exact Hn|].
  split.
  - exact (proj1 (reflection_formula _ HE) _ _ Hd Hn).
  - exact (proj2 (proj2 (reflection_formula _ HE))).
Defined.


Lemma get_normalized_guard_witness :
  Vector.isnoraml Vector.infinity = false
  /\ Vector.get_normalized Vector.infinity = None
  /\ exists w : Vector.t,
      Vector.get_normalized
        (Vector.mk (Real.Fin 0) (Real.Fin 0) (Real.Fin (- 2))) = Some w
      /\ Vector.isnoraml w = true.
Proof.
  split; [reflexivity|].
  split.
  - exact (proj1 (get_normalized_guard Vector.infinity)
             (or_introl eq_refl)).
  - assert (Hnz : 0 * 0 + 0 * 0 + - 2 * - 2 <> 0) by lra.
    pose proof (normalize_finite_nonzero 0 0 (- 2) Hnz) as Hw.
    eexists. split; [exact Hw|].
    exact (proj2 (proj2 (proj2 (proj2 (proj2 (proj2
      (proj2 (get_normalized_guard _) _ Hw))))))).
Defined.

Lemma transmission_dense_medium_witness :
  0 < 1 / 1000000 /\ 1 <= Rabs 2
  /\ Real.lt (Snell.cos2_sq (Vector.mk Real.zero Real.zero Real.one)
                (Vector.mk (Real.Fin (4 / 5)) Real.zero (Real.Fin (- 3 / 5)))
                (Real.Fin 2))
             Real.zero = false.
Proof.
  assert (HE : 0 < 1 / 1000000) by lra.
  assert (Hd : 1 <= Rabs 2) by (rewrite Rabs_right; lra).
  split; [exact HE|]. split; [exact Hd|].
  exact (proj1 (transmission_dense_medium _ HE
                  (Vector.mk Real.zero Real.zero Real.one)
                  (Vector.mk (Real.Fin (4 / 5)) Real.zero
                             (Real.Fin (- 3 / 5)))
                  2 Hd)).
Defined.

Lemma get_sec_forward_witness :
  exists r : R,
    Utils.get_sec (Utils.HWTimer_new (Utils.mk_timeval 100 500000))
                  (Utils.mk_timeval 102 250000) = Real.Fin r
    /\ 0 <= r.
Proof.
  refine (get_sec_forward (Utils.mk_timeval 100 500000)
            (Utils.mk_timeval 102 250000) _ _ _); simpl; lia.
Defined.
